(** * Workshop admin dashboard: task sequencer, workshop lifecycle,
      leaderboard ranks and group codes

    A shallow embedding of the state-changing handlers of the admin
    components:

    - [WorkshopTasksTab.tsx]: [toggleTaskActive], [handleEndTask];
    - [WorkshopOverviewTab.tsx]: [handleStartWorkshop], [handleEndWorkshop]
      and the two conditions that render the Start and End buttons;
    - [WorkshopLeaderboardTab]: [refreshLeaderboard], [handleAdjustPoints];
    - [WorkshopGroupsTab]: [generateCode].

    The managed backend is a record of tables; a table is the list of its
    rows and [from(t).update(p).eq(col, v)] rewrites every row whose column
    [col] equals [v].  Handlers live in a small state monad that threads the
    backend, the outcome of each request, the requests sent and the toasts
    shown. *)

From Stdlib Require Import ZArith NArith Bool String Ascii List Lia.
From Stdlib Require Import Permutation Sorted.
From Stdlib Require Import DecimalString DecimalNat.
Import ListNotations.

Open Scope string_scope.
Open Scope Z_scope.
Open Scope list_scope.

(** ** Rows *)

(** [interface Task] of WorkshopTasksTab.tsx, plus the [workshop_id] column
    that [select('*')] brings along.  [task_order] and [points] are integer
    columns, so the JavaScript arithmetic on them is exact and [Z] models
    it.  [start_time] holds the ISO string of [new Date().toISOString()]. *)
Module Task.
Record t := mk {
  id : string;
  workshop_id : string;
  title : string;
  description : option string;
  points : Z;
  timer_minutes : option Z;
  is_active : bool;
  is_ended : bool;
  task_order : Z;
  start_time : option string
}.
End Task.

(** [interface Workshop] of AdminWorkshopDetail.tsx, plus [updated_at],
    which [handleStartWorkshop] writes.  [status] is a nullable TEXT column
    (migration: [DEFAULT 'draft']). *)
Module Workshop.
Record t := mk {
  id : string;
  title : string;
  description : option string;
  duration : option string;
  banner_url : option string;
  created_at : option string;
  updated_at : option string;
  status : option string
}.
End Workshop.

(** [interface LeaderboardEntry], restricted to the columns of the
    [workshop_leaderboard] table ([workshop_groups] and [members] are joined
    in by [fetchLeaderboard] and never written). *)
Module Entry.
Record t := mk {
  id : string;
  workshop_id : string;
  group_id : string;
  total_score : Z;
  tasks_completed : Z;
  rank : option Z
}.
End Entry.

(** ** Update objects

    The argument of [.update({...})]: a column that is absent keeps its
    value.  [start_time: null] is [Some None]. *)

Definition keep_or {A} (old : A) (new : option A) : A :=
  match new with
  | Some v => v
  | None => old
  end.

Record TaskPatch := {
  set_is_active : option bool;
  set_is_ended : option bool;
  set_start_time : option (option string)
}.

Record WorkshopPatch := {
  set_status : option string;
  set_updated_at : option string
}.

Record EntryPatch := {
  set_total_score : option Z;
  set_rank : option Z
}.

Definition patch_task (p : TaskPatch) (r : Task.t) : Task.t :=
  {| Task.id := Task.id r;
     Task.workshop_id := Task.workshop_id r;
     Task.title := Task.title r;
     Task.description := Task.description r;
     Task.points := Task.points r;
     Task.timer_minutes := Task.timer_minutes r;
     Task.is_active := keep_or (Task.is_active r) (set_is_active p);
     Task.is_ended := keep_or (Task.is_ended r) (set_is_ended p);
     Task.task_order := Task.task_order r;
     Task.start_time := keep_or (Task.start_time r) (set_start_time p) |}.

Definition patch_workshop (p : WorkshopPatch) (r : Workshop.t) : Workshop.t :=
  {| Workshop.id := Workshop.id r;
     Workshop.title := Workshop.title r;
     Workshop.description := Workshop.description r;
     Workshop.duration := Workshop.duration r;
     Workshop.banner_url := Workshop.banner_url r;
     Workshop.created_at := Workshop.created_at r;
     Workshop.updated_at :=
       keep_or (Workshop.updated_at r) (option_map Some (set_updated_at p));
     Workshop.status :=
       keep_or (Workshop.status r) (option_map Some (set_status p)) |}.

Definition patch_entry (p : EntryPatch) (r : Entry.t) : Entry.t :=
  {| Entry.id := Entry.id r;
     Entry.workshop_id := Entry.workshop_id r;
     Entry.group_id := Entry.group_id r;
     Entry.total_score := keep_or (Entry.total_score r) (set_total_score p);
     Entry.tasks_completed := Entry.tasks_completed r;
     Entry.rank := keep_or (Entry.rank r) (option_map Some (set_rank p)) |}.

(** ** The backend *)

Record DB := {
  workshops : list Workshop.t;
  workshop_tasks : list Task.t;
  workshop_leaderboard : list Entry.t
}.

(** [.update(patch).eq(col, v)]: every row whose [col] is [v] is patched,
    the others are left alone; no row matching is not an error. *)
Definition update_where {R : Type} (col : R -> string) (v : string)
    (patch : R -> R) (tbl : list R) : list R :=
  map (fun r => if String.eqb (col r) v then patch r else r) tbl.

(** The four shapes of write the handlers send. *)
Inductive Request :=
| UpdateTaskById (id : string) (p : TaskPatch)
| UpdateTasksByWorkshop (workshop_id : string) (p : TaskPatch)
| UpdateWorkshopById (id : string) (p : WorkshopPatch)
| UpdateEntryById (id : string) (p : EntryPatch).

(** What the backend does with a request it accepts. *)
Definition apply_request (rq : Request) (d : DB) : DB :=
  match rq with
  | UpdateTaskById i p =>
      {| workshops := workshops d;
         workshop_tasks := update_where Task.id i (patch_task p) (workshop_tasks d);
         workshop_leaderboard := workshop_leaderboard d |}
  | UpdateTasksByWorkshop w p =>
      {| workshops := workshops d;
         workshop_tasks :=
           update_where Task.workshop_id w (patch_task p) (workshop_tasks d);
         workshop_leaderboard := workshop_leaderboard d |}
  | UpdateWorkshopById i p =>
      {| workshops := update_where Workshop.id i (patch_workshop p) (workshops d);
         workshop_tasks := workshop_tasks d;
         workshop_leaderboard := workshop_leaderboard d |}
  | UpdateEntryById i p =>
      {| workshops := workshops d;
         workshop_tasks := workshop_tasks d;
         workshop_leaderboard :=
           update_where Entry.id i (patch_entry p) (workshop_leaderboard d) |}
  end.

(** The [toast({ title, variant })] calls of the handlers. *)
Inductive Toast :=
| CannotActivateEnded
| ErrorTogglingTask
| TaskDeactivated
| TaskActivated
| ErrorEndingTask
| TaskEndedNextActive (next_title : string)
| TaskEndedNoMore
| ErrorStartingWorkshop
| WorkshopStarted
| ErrorEndingWorkshop
| WorkshopCompleted
| LeaderboardRefreshed
| ErrorAdjustingPoints
| PointsAdjusted (by_points : Z).

(** [variant: "destructive"] marks the error notices. *)
Definition destructive (t : Toast) : bool :=
  match t with
  | CannotActivateEnded | ErrorTogglingTask | ErrorEndingTask
  | ErrorStartingWorkshop | ErrorEndingWorkshop | ErrorAdjustingPoints => true
  | _ => false
  end.

(** A request is one SQL statement: the backend either applies it or
    answers with an error and applies nothing. *)
Inductive Outcome := Accepted | Rejected.

(** The world a handler runs in.  [script] gives the outcome of the
    requests to come, in order; once it is used up requests are accepted. *)
Record Env := {
  db : DB;
  script : list Outcome;
  sent : list Request;
  toasts : list Toast
}.

(** ** The handler monad *)

Definition UI (A : Type) : Type := Env -> A * Env.

Definition ret {A} (a : A) : UI A := fun e => (a, e).

Definition bind {A B} (m : UI A) (k : A -> UI B) : UI B :=
  fun e => let (a, e') := m e in k a e'.

Notation "'await' x ':=' m 'in' k" := (bind m (fun x => k))
  (at level 10, x name, m at level 200, k at level 200,
   format "'[v' 'await'  x  ':='  m  'in' '/' k ']'").

(** The answer to the [k]-th request from now. *)
Definition answer (k : nat) (e : Env) : Outcome := nth k (script e) Accepted.

(** [await supabase.from(..).update(..).eq(..)]: the result's [error] is
    [true] when the backend rejected the request. *)
Definition supabase (rq : Request) : UI bool :=
  fun e =>
    match answer 0 e with
    | Accepted =>
        (false, {| db := apply_request rq (db e); script := tl (script e);
                   sent := sent e ++ [rq]; toasts := toasts e |})
    | Rejected =>
        (true, {| db := db e; script := tl (script e);
                  sent := sent e ++ [rq]; toasts := toasts e |})
    end.

Definition toast (t : Toast) : UI unit :=
  fun e => (tt, {| db := db e; script := script e;
                   sent := sent e; toasts := toasts e ++ [t] |}).

(** Final world of a handler run. *)
Definition exec {A} (m : UI A) (e : Env) : Env := snd (m e).
Definition result {A} (m : UI A) (e : Env) : A := fst (m e).

(** Every request to come is accepted. *)
Definition reliable (e : Env) : Prop := forall k, answer k e = Accepted.

(** ** WorkshopTasksTab *)

Module TasksTab.

(** [toggleTaskActive(task)]; [now] is [new Date().toISOString()]. *)
Definition toggleTaskActive (now : string) (task : Task.t) : UI unit :=
  if Task.is_ended task then
    toast CannotActivateEnded
  else
    await error := supabase (UpdateTaskById (Task.id task)
               {| set_is_active := Some (negb (Task.is_active task));
                  set_is_ended := None;
                  set_start_time :=
                    Some (if negb (Task.is_active task) then Some now else None) |}) in
    if error then toast ErrorTogglingTask
    else toast (if Task.is_active task then TaskDeactivated else TaskActivated).

(** The predicate of [tasks.find(...)] in [handleEndTask]. *)
Definition is_next (task t : Task.t) : bool :=
  (Task.task_order t =? Task.task_order task + 1) && negb (Task.is_ended t).

(** [handleEndTask(task)]; [tasks] is the component's task list,
    [confirmed] the answer to [confirm(...)], [now] the clock read by the
    activation write. *)
Definition handleEndTask (tasks : list Task.t) (confirmed : bool)
    (now : string) (task : Task.t) : UI unit :=
  if negb confirmed then ret tt
  else
    await endError := supabase (UpdateTaskById (Task.id task)
                  {| set_is_active := Some false;
                     set_is_ended := Some true;
                     set_start_time := None |}) in
    if endError then toast ErrorEndingTask
    else
      match find (is_next task) tasks with
      | Some nextTask =>
          await _ := supabase (UpdateTaskById (Task.id nextTask)
            {| set_is_active := Some true;
               set_is_ended := None;
               set_start_time := Some (Some now) |}) in
          toast (TaskEndedNextActive (Task.title nextTask))
      | None => toast TaskEndedNoMore
      end.

End TasksTab.

(** ** WorkshopOverviewTab *)

Module OverviewTab.

(** [{workshopStatus !== 'live' && (...Start Workshop...)}]. *)
Definition startButtonShown (workshopStatus : string) : bool :=
  negb (String.eqb workshopStatus "live").

(** [{workshopStatus === 'live' && (...End Workshop...)}]. *)
Definition endButtonShown (workshopStatus : string) : bool :=
  String.eqb workshopStatus "live".

(** [handleStartWorkshop()]; the component's [workshopStatus] goes in
    and its new value comes out. *)
Definition handleStartWorkshop (workshopId now workshopStatus : string)
    : UI string :=
  await error := supabase (UpdateWorkshopById workshopId
                   {| set_status := Some "live"; set_updated_at := Some now |}) in
  if error then
    await _ := toast ErrorStartingWorkshop in ret workshopStatus
  else
    await _ := toast WorkshopStarted in ret "live".

(** [handleEndWorkshop()]. *)
Definition handleEndWorkshop (workshopId workshopStatus : string) : UI string :=
  await _ := supabase (UpdateTasksByWorkshop workshopId
               {| set_is_active := Some false;
                  set_is_ended := Some true;
                  set_start_time := None |}) in
  await error := supabase (UpdateWorkshopById workshopId
                   {| set_status := Some "completed"; set_updated_at := None |}) in
  if error then
    await _ := toast ErrorEndingWorkshop in ret workshopStatus
  else
    await _ := toast WorkshopCompleted in ret "completed".

(** The start operation as the component offers it: the Start button and
    its confirmation dialog exist only while [startButtonShown]; without
    the button nothing can be invoked. *)
Definition start (workshopId now workshopStatus : string) : UI string :=
  if startButtonShown workshopStatus
  then handleStartWorkshop workshopId now workshopStatus
  else ret workshopStatus.

(** The end operation as the component offers it. *)
Definition finish (workshopId workshopStatus : string) : UI string :=
  if endButtonShown workshopStatus
  then handleEndWorkshop workshopId workshopStatus
  else ret workshopStatus.

End OverviewTab.

(** ** WorkshopLeaderboardTab *)

Module LeaderboardTab.

(** [Array.prototype.sort(compareFn)].  ECMAScript requires the sort to be
    stable; with a comparator that is a consistent ordering the result is
    then unique, and it is the one this insertion sort builds: [x], which
    comes before every element of [l] in the input, goes in front of the
    first [y] with [compareFn(x, y) <= 0]. *)
Fixpoint insert {A} (compareFn : A -> A -> Z) (x : A) (l : list A) : list A :=
  match l with
  | [] => [x]
  | y :: l' =>
      if compareFn x y <=? 0 then x :: l else y :: insert compareFn x l'
  end.

Definition sort {A} (compareFn : A -> A -> Z) (l : list A) : list A :=
  fold_right (insert compareFn) [] l.

(** [(a, b) => b.total_score - a.total_score]. *)
Definition by_score_desc (a b : Entry.t) : Z :=
  Entry.total_score b - Entry.total_score a.

(** The loop [for (let i = 0; i < sortedEntries.length; i++)] from index
    [i] on; the result of each write is dropped. *)
Fixpoint write_ranks (i : Z) (sortedEntries : list Entry.t) : UI unit :=
  match sortedEntries with
  | [] => ret tt
  | x :: rest =>
      await _ := supabase (UpdateEntryById (Entry.id x)
                   {| set_total_score := None; set_rank := Some (i + 1) |}) in
      write_ranks (i + 1) rest
  end.

(** [refreshLeaderboard()] on the component's [leaderboard]; the closing
    [fetchLeaderboard()] only reads. *)
Definition refreshLeaderboard (leaderboard : list Entry.t) : UI unit :=
  let sortedEntries := sort by_score_desc leaderboard in
  await _ := write_ranks 0 sortedEntries in
  toast LeaderboardRefreshed.

(** [handleAdjustPoints()]; [dialogOpen] goes in and comes out.  The
    [fetchLeaderboard()] after a success only reads. *)
Definition handleAdjustPoints (adjustingEntry : option Entry.t)
    (pointsAdjustment : Z) (dialogOpen : bool) : UI bool :=
  match adjustingEntry with
  | None => ret dialogOpen
  | Some entry =>
      let newScore := Entry.total_score entry + pointsAdjustment in
      await error := supabase (UpdateEntryById (Entry.id entry)
                       {| set_total_score := Some newScore; set_rank := None |}) in
      if error then
        await _ := toast ErrorAdjustingPoints in ret dialogOpen
      else
        await _ := toast (PointsAdjusted pointsAdjustment) in ret false
  end.

(** The rank stored for the entry [i], when there is exactly one. *)
Definition stored_rank (i : string) (d : DB) : option Z :=
  match filter (fun r => String.eqb (Entry.id r) i) (workshop_leaderboard d) with
  | [r] => Entry.rank r
  | _ => None
  end.

End LeaderboardTab.

(** ** WorkshopGroupsTab *)

Module GroupsTab.

(** The digits of [Number.prototype.toString(36)]. *)
Definition digit36 (d : N) : ascii :=
  match get (N.to_nat d) "0123456789abcdefghijklmnopqrstuvwxyz" with
  | Some c => c
  | None => "?"%char
  end.

Fixpoint digits36 (ds : list N) : string :=
  match ds with
  | [] => EmptyString
  | d :: ds' => String (digit36 d) (digits36 ds')
  end.

(** [Math.random().toString(36)].  [Math.random()] is a double in [0, 1);
    it prints as ["0"] when it is zero and as ["0."] followed by its
    base-36 fraction digits otherwise.  The random value is given by
    those digits, [fraction]. *)
Definition toString36 (fraction : list N) : string :=
  match fraction with
  | [] => "0"
  | _ => String.append "0." (digits36 fraction)
  end.

(** [String.prototype.substring(start, end)] for non-negative arguments:
    both are clamped to the length and swapped when out of order. *)
Definition js_substring (s : string) (start stop : nat) : string :=
  let len := String.length s in
  let a := Nat.min start len in
  let b := Nat.min stop len in
  substring (Nat.min a b) (Nat.max a b - Nat.min a b) s.

(** [String.prototype.toUpperCase()] on ASCII text. *)
Definition upper (c : ascii) : ascii :=
  let n := N_of_ascii c in
  if ((97 <=? n) && (n <=? 122))%N then ascii_of_N (n - 32) else c.

Fixpoint toUpperCase (s : string) : string :=
  match s with
  | EmptyString => EmptyString
  | String c s' => String (upper c) (toUpperCase s')
  end.

(** [generateCode()]:
    [Math.random().toString(36).substring(2, 8).toUpperCase()]. *)
Definition generateCode (fraction : list N) : string :=
  toUpperCase (js_substring (toString36 fraction) 2 8).

(** The exact base-36 fraction digits of the double [mant / 2^bits]
    ([mant < 2^bits]): multiply by 36, emit the integer part, go on with
    the rest.  Since 36 = 4 * 9 the expansion ends after at most
    [bits] digits.  While it has at most ten digits no shorter digit
    string names the same double, so it is what [toString(36)] prints. *)
Fixpoint exact_digits36 (fuel : nat) (mant : N) (bits : N) : list N :=
  match fuel with
  | O => []
  | S fuel' =>
      if (mant =? 0)%N then []
      else (N.shiftr (mant * 36) bits)
           :: exact_digits36 fuel' (N.land (mant * 36) (N.ones bits)) bits
  end.

Definition fraction_of (mant bits : N) : list N :=
  exact_digits36 (N.to_nat bits) mant bits.

(** The alphabet [[A-Z0-9]]. *)
Definition alnum_upper (c : ascii) : bool :=
  let n := N_of_ascii c in
  (((48 <=? n) && (n <=? 57)) || ((65 <=? n) && (n <=? 90)))%N.

Fixpoint all_chars (p : ascii -> bool) (s : string) : bool :=
  match s with
  | EmptyString => true
  | String c s' => p c && all_chars p s'
  end.

End GroupsTab.


(** ** Row transformers named by the statements below *)

(** [{ is_active: false, is_ended: true }] on a row. *)
Definition ended (r : Task.t) : Task.t :=
  patch_task {| set_is_active := Some false;
                set_is_ended := Some true;
                set_start_time := None |} r.

(** [{ is_active: true, start_time: now }] on a row. *)
Definition activated (now : string) (r : Task.t) : Task.t :=
  patch_task {| set_is_active := Some true;
                set_is_ended := None;
                set_start_time := Some (Some now) |} r.

(** [{ status: 'completed' }] and [{ status: 'live', updated_at: now }]. *)
Definition completed (r : Workshop.t) : Workshop.t :=
  patch_workshop {| set_status := Some "completed"; set_updated_at := None |} r.

Definition live (now : string) (r : Workshop.t) : Workshop.t :=
  patch_workshop {| set_status := Some "live"; set_updated_at := Some now |} r.

(** [{ total_score: s }] and [{ rank: k }]. *)
Definition with_score (s : Z) (r : Entry.t) : Entry.t :=
  patch_entry {| set_total_score := Some s; set_rank := None |} r.

Definition with_rank (k : Z) (r : Entry.t) : Entry.t :=
  patch_entry {| set_total_score := None; set_rank := Some k |} r.

(** The order [sortedEntries] is in, and the entries of one score. *)
Definition score_desc (x y : Entry.t) : Prop :=
  Entry.total_score y <= Entry.total_score x.

Definition has_score (v : Z) (x : Entry.t) : bool := Entry.total_score x =? v.

(** What the accepted writes of [write_ranks i l] do to one stored row. *)
Fixpoint ranked (i : Z) (l : list Entry.t) (r : Entry.t) : Entry.t :=
  match l with
  | [] => r
  | x :: rest =>
      ranked (i + 1) rest
        (if String.eqb (Entry.id r) (Entry.id x) then with_rank (i + 1) r else r)
  end.

(** The requests [write_ranks i l] sends. *)
Fixpoint rank_requests (i : Z) (l : list Entry.t) : list Request :=
  match l with
  | [] => []
  | x :: rest =>
      UpdateEntryById (Entry.id x)
        {| set_total_score := None; set_rank := Some (i + 1) |}
      :: rank_requests (i + 1) rest
  end.

(** The two writes of [handleEndWorkshop] and the write of
    [handleStartWorkshop]. *)
Definition end_all_tasks_request (workshopId : string) : Request :=
  UpdateTasksByWorkshop workshopId
    {| set_is_active := Some false; set_is_ended := Some true;
       set_start_time := None |}.

Definition complete_request (workshopId : string) : Request :=
  UpdateWorkshopById workshopId
    {| set_status := Some "completed"; set_updated_at := None |}.

Definition start_request (workshopId now : string) : Request :=
  UpdateWorkshopById workshopId
    {| set_status := Some "live"; set_updated_at := Some now |}.

(** Every stored task of workshop [w] is ended and inactive. *)
Definition tasks_ended (w : string) (tbl : list Task.t) : Prop :=
  forall r, In r tbl -> Task.workshop_id r = w ->
            Task.is_active r = false /\ Task.is_ended r = true.

(** Every stored workshop row with id [w] has status [st]. *)
Definition status_is (w st : string) (tbl : list Workshop.t) : Prop :=
  forall r, In r tbl -> Workshop.id r = w -> Workshop.status r = Some st.

(** The two writes of [handleEndTask]. *)
Definition end_request (task : Task.t) : Request :=
  UpdateTaskById (Task.id task)
    {| set_is_active := Some false; set_is_ended := Some true;
       set_start_time := None |}.

Definition activate_request (now : string) (nextTask : Task.t) : Request :=
  UpdateTaskById (Task.id nextTask)
    {| set_is_active := Some true; set_is_ended := None;
       set_start_time := Some (Some now) |}.

(** Every stored row with id [i] is ended and inactive. *)
Definition rows_ended (i : string) (tbl : list Task.t) : Prop :=
  forall r, In r tbl -> Task.id r = i ->
            Task.is_active r = false /\ Task.is_ended r = true.

(** The condition of [tasks.find] as a proposition. *)
Definition next_after (task t : Task.t) : Prop :=
  Task.task_order t = Task.task_order task + 1 /\ Task.is_ended t = false.

(** ** Sample data *)

Definition sample_task (i : string) (order : Z) (active : bool) : Task.t :=
  {| Task.id := i; Task.workshop_id := "w1"; Task.title := i;
     Task.description := None; Task.points := 10;
     Task.timer_minutes := Some 30; Task.is_active := active;
     Task.is_ended := false; Task.task_order := order;
     Task.start_time := None |}.

Definition sample_workshop (st : string) : Workshop.t :=
  {| Workshop.id := "w1"; Workshop.title := "Workshop";
     Workshop.description := None; Workshop.duration := None;
     Workshop.banner_url := None; Workshop.created_at := None;
     Workshop.updated_at := None; Workshop.status := Some st |}.

Definition sample_entry (i : string) (score : Z) : Entry.t :=
  {| Entry.id := i; Entry.workshop_id := "w1"; Entry.group_id := i;
     Entry.total_score := score; Entry.tasks_completed := 0;
     Entry.rank := None |}.

(** Orders 1, 2, 3; the first task is the active one. *)
Definition three_tasks : list Task.t :=
  [sample_task "t1" 1 true; sample_task "t2" 2 false; sample_task "t3" 3 false].

(** Entries A, B, C, D with scores 30, 50, 50, 10. *)
Definition four_entries : list Entry.t :=
  [sample_entry "A" 30; sample_entry "B" 50; sample_entry "C" 50;
   sample_entry "D" 10].

(** A live workshop with [three_tasks] and [four_entries], a backend that
    answers as [script] says. *)
Definition sample_env (script : list Outcome) : Env :=
  {| db := {| workshops := [sample_workshop "live"];
              workshop_tasks := three_tasks;
              workshop_leaderboard := four_entries |};
     script := script; sent := []; toasts := [] |}.

(** ** WorkshopTasksTab: the buttons of a task row *)

Module TaskRow.

(** [{!task.is_ended && (<> toggle ... </>)}]. *)
Definition toggleButtonShown (task : Task.t) : bool := negb (Task.is_ended task).

(** [{task.is_active && (... StopCircle ...)}] inside the block above. *)
Definition endButtonShown (task : Task.t) : bool :=
  negb (Task.is_ended task) && Task.is_active task.

(** [disabled={task.is_ended}] on the Edit and Delete buttons. *)
Definition editDisabled (task : Task.t) : bool := Task.is_ended task.
Definition deleteDisabled (task : Task.t) : bool := Task.is_ended task.

(** [task.is_ended ? "Ended" : task.is_active ? "Active" : "Inactive"]. *)
Definition statusLabel (task : Task.t) : string :=
  if Task.is_ended task then "Ended"
  else if Task.is_active task then "Active" else "Inactive".

End TaskRow.

(** ** WorkshopTasksTab: the task form

    [handleEdit], [resetForm], [handleSubmit] and [handleDelete] send one
    write each, so the backend's answer is an argument and the tasks table
    is passed in and out.  The number fields of the form hold integers. *)

Module TaskForm.

(** The [formData] state. *)
Record FormData := {
  title : string;
  description : string;
  points : Z;
  timer_minutes : Z;
  task_order : Z
}.

(** The component state the form handlers touch. *)
Record Form := {
  showDialog : bool;
  editingTask : option Task.t;
  formData : FormData
}.

Inductive Toast :=
| TitleRequired
| ErrorUpdatingTask
| TaskUpdated
| ErrorCreatingTask
| TaskCreated
| ErrorDeletingTask
| TaskDeleted.

(** The writes of the form: [update(taskData).eq('id', id)],
    [insert([taskData])] and [delete().eq('id', id)], with
    [taskData = { ...formData, workshop_id }]. *)
Inductive Write :=
| UpdateTaskData (id : string) (workshop_id : string) (data : FormData)
| InsertTaskData (workshop_id : string) (data : FormData)
| DeleteTaskById (id : string).

(** What a handler leaves behind. *)
Record Run := {
  table : list Task.t;
  form : Form;
  shown : list Toast;
  writes : list Write
}.

Definition emptyForm : FormData :=
  {| title := ""; description := ""; points := 10; timer_minutes := 30;
     task_order := 1 |}.

(** [resetForm()]. *)
Definition resetForm (st : Form) : Form :=
  {| showDialog := false; editingTask := None; formData := emptyForm |}.

(** [task.description || ""] and [task.timer_minutes || 30]: [null], and
    the empty string or zero, give the default. *)
Definition description_or_empty (d : option string) : string :=
  match d with
  | Some s => s
  | None => ""
  end.

Definition timer_or_30 (t : option Z) : Z :=
  match t with
  | Some n => if n =? 0 then 30 else n
  | None => 30
  end.

(** [handleEdit(task)]. *)
Definition handleEdit (task : Task.t) (st : Form) : Form :=
  {| showDialog := true;
     editingTask := Some task;
     formData :=
       {| title := Task.title task;
          description := description_or_empty (Task.description task);
          points := Task.points task;
          timer_minutes := timer_or_30 (Task.timer_minutes task);
          task_order := Task.task_order task |} |}.

(** [update(taskData)] on one row. *)
Definition with_taskData (workshopId : string) (f : FormData) (r : Task.t) : Task.t :=
  {| Task.id := Task.id r;
     Task.workshop_id := workshopId;
     Task.title := title f;
     Task.description := Some (description f);
     Task.points := points f;
     Task.timer_minutes := Some (timer_minutes f);
     Task.is_active := Task.is_active r;
     Task.is_ended := Task.is_ended r;
     Task.task_order := task_order f;
     Task.start_time := Task.start_time r |}.

Section Insert.

(** The row the backend makes of an inserted [taskData]: its generated id
    and the column defaults are the backend's. *)
Variable created : string -> FormData -> Task.t.

(** What the backend does with a write it accepts. *)
Definition apply_write (w : Write) (tbl : list Task.t) : list Task.t :=
  match w with
  | UpdateTaskData i wid f => update_where Task.id i (with_taskData wid f) tbl
  | InsertTaskData wid f => tbl ++ [created wid f]
  | DeleteTaskById i => filter (fun r => negb (String.eqb (Task.id r) i)) tbl
  end.

Definition send (o : Outcome) (w : Write) (tbl : list Task.t) : list Task.t :=
  match o with
  | Accepted => apply_write w tbl
  | Rejected => tbl
  end.

(** [handleSubmit()]; [o] is the backend's answer to the write. *)
Definition handleSubmit (workshopId : string) (o : Outcome) (st : Form)
    (tbl : list Task.t) : Run :=
  if String.eqb (title (formData st)) "" then
    {| table := tbl; form := st; shown := [TitleRequired]; writes := [] |}
  else
    match editingTask st with
    | Some task =>
        let w := UpdateTaskData (Task.id task) workshopId (formData st) in
        match o with
        | Rejected =>
            {| table := send o w tbl; form := st;
               shown := [ErrorUpdatingTask]; writes := [w] |}
        | Accepted =>
            {| table := send o w tbl; form := resetForm st;
               shown := [TaskUpdated]; writes := [w] |}
        end
    | None =>
        let w := InsertTaskData workshopId (formData st) in
        match o with
        | Rejected =>
            {| table := send o w tbl; form := st;
               shown := [ErrorCreatingTask]; writes := [w] |}
        | Accepted =>
            {| table := send o w tbl; form := resetForm st;
               shown := [TaskCreated]; writes := [w] |}
        end
    end.

(** [handleDelete(id)]; [confirmed] is the answer to [confirm(...)]. *)
Definition handleDelete (confirmed : bool) (o : Outcome) (id : string)
    (st : Form) (tbl : list Task.t) : Run :=
  if confirmed then
    let w := DeleteTaskById id in
    match o with
    | Rejected =>
        {| table := send o w tbl; form := st;
           shown := [ErrorDeletingTask]; writes := [w] |}
    | Accepted =>
        {| table := send o w tbl; form := st;
           shown := [TaskDeleted]; writes := [w] |}
    end
  else {| table := tbl; form := st; shown := []; writes := [] |}.

End Insert.

End TaskForm.

(** ** WorkshopOverviewTab: statistics and the status read *)

Module Stats.

Record OverviewStats := {
  totalParticipants : Z;
  totalGroups : Z;
  totalTasks : Z;
  activeTasks : Z;
  completedSubmissions : Z
}.

(** The answer to a [select(..., { count: 'exact' })]. *)
Record Answer := {
  data : option (list Task.t);
  count : option Z
}.

(** [count || 0]. *)
Definition or_zero (c : option Z) : Z :=
  match c with
  | Some n => n
  | None => 0
  end.

(** [fetchStats()] from the four answers of its [Promise.all]; of the
    tasks answer the rows are read only for [is_active]. *)
Definition fetchStats (participants groups : option Z) (tasks : Answer)
    (submissions : option Z) : OverviewStats :=
  {| totalParticipants := or_zero participants;
     totalGroups := or_zero groups;
     totalTasks := or_zero (count tasks);
     activeTasks :=
       match data tasks with
       | Some rows => Z.of_nat (length (filter Task.is_active rows))
       | None => 0
       end;
     completedSubmissions := or_zero submissions |}.

(** What the backend answers to
    [from('workshop_tasks').select('id, is_active', { count: 'exact' })
     .eq('workshop_id', workshopId)], as long as the workshop has no more
    tasks than the backend returns in one answer. *)
Definition tasks_answer (workshopId : string) (d : DB) : Answer :=
  let rows :=
    filter (fun r => String.eqb (Task.workshop_id r) workshopId)
      (workshop_tasks d) in
  {| data := Some rows; count := Some (Z.of_nat (length rows)) |}.

(** [.single()]: the row when exactly one matches, no data otherwise. *)
Definition single {A} (rows : list A) : option A :=
  match rows with
  | [r] => Some r
  | _ => None
  end.

(** [data.status || 'draft']. *)
Definition status_or_draft (s : option string) : string :=
  match s with
  | Some EmptyString => "draft"
  | Some st => st
  | None => "draft"
  end.

(** [fetchWorkshopStatus()]: the component's [workshopStatus] after the
    read; [o] tells whether the read went through. *)
Definition fetchWorkshopStatus (o : Outcome) (workshopId workshopStatus : string)
    (d : DB) : string :=
  match o with
  | Rejected => workshopStatus
  | Accepted =>
      match single (filter (fun r => String.eqb (Workshop.id r) workshopId)
                      (workshops d)) with
      | Some r => status_or_draft (Workshop.status r)
      | None => workshopStatus
      end
  end.

End Stats.

(** ** WorkshopGroupsTab: the rows sent by the create handlers *)

Module GroupForms.

(** One element of the array given to [insert]. *)
Record GroupInsert := {
  workshop_id : string;
  group_name : string;
  group_code : string
}.

Inductive Toast :=
| GroupNameRequired
| ErrorCreatingGroup
| GroupCreated
| ErrorCreatingGroups
| GroupsCreated (bulkCount : Z).

(** What [handleBulkCreate] does when it runs to its end: the array it
    inserts, the toast, and whether [fetchGroups()] follows. *)
Record Run := {
  inserted : list GroupInsert;
  shown : Toast;
  refetch : bool
}.

(** How a call of the handler ends: [Array.from] throws
    [RangeError: Invalid array length] and the handler stops there, or it
    runs to its end. *)
Inductive Completion :=
| ThrewRangeError
| Done (run : Run).

(** The decimal text of [i + 1] in [`Team ${i + 1}`]. *)
Definition team_name (i : nat) : string :=
  String.append "Team " (NilEmpty.string_of_uint (Nat.to_uint (S i))).

(** The largest length an array can have, [2^32 - 1]. *)
Definition max_array_length : Z := 4294967295.

(** [Array.from({ length }, (_, i) => f(i))] for an integer [length]: a
    negative length counts as zero, a length above [2^32 - 1] makes the
    array constructor throw [RangeError] ([None]), and otherwise [f] is
    called for [i = 0 .. length - 1] in order. *)
Definition Array_from {A} (length : Z) (f : nat -> A) : option (list A) :=
  if max_array_length <? length then None
  else Some (map f (seq 0 (Z.to_nat length))).

(** [Array.from({ length: bulkCount }, (_, i) => ({ workshop_id, group_name,
    group_code }))]; [random k] gives the fraction digits of the [k]-th
    [Math.random()] from now.  [bulkCount] is the integer that [parseInt]
    read from the input. *)
Definition bulk_groups (workshopId : string) (bulkCount : Z)
    (random : nat -> list N) : option (list GroupInsert) :=
  Array_from bulkCount
    (fun i => {| workshop_id := workshopId;
                 group_name := team_name i;
                 group_code := GroupsTab.generateCode (random i) |}).

(** [handleBulkCreate()]; [o] is the backend's answer to the insert. *)
Definition handleBulkCreate (workshopId : string) (bulkCount : Z)
    (random : nat -> list N) (o : Outcome) : Completion :=
  match bulk_groups workshopId bulkCount random with
  | None => ThrewRangeError
  | Some groups =>
      match o with
      | Rejected =>
          Done {| inserted := groups; shown := ErrorCreatingGroups;
                  refetch := false |}
      | Accepted =>
          Done {| inserted := groups; shown := GroupsCreated bulkCount;
                  refetch := true |}
      end
  end.

End GroupForms.

(** A backend that stores an inserted task as a fresh inactive row. *)
Definition sample_created (workshopId : string) (f : TaskForm.FormData) : Task.t :=
  {| Task.id := "new"; Task.workshop_id := workshopId;
     Task.title := TaskForm.title f;
     Task.description := Some (TaskForm.description f);
     Task.points := TaskForm.points f;
     Task.timer_minutes := Some (TaskForm.timer_minutes f);
     Task.is_active := false; Task.is_ended := false;
     Task.task_order := TaskForm.task_order f; Task.start_time := None |}.

(** ** More row transformers *)

(** [{ is_active: !task.is_active, start_time: ... }] of
    [toggleTaskActive]. *)
Definition toggled (now : string) (task : Task.t) (r : Task.t) : Task.t :=
  patch_task
    {| set_is_active := Some (negb (Task.is_active task));
       set_is_ended := None;
       set_start_time :=
         Some (if negb (Task.is_active task) then Some now else None) |} r.

Definition toggle_request (now : string) (task : Task.t) : Request :=
  UpdateTaskById (Task.id task)
    {| set_is_active := Some (negb (Task.is_active task));
       set_is_ended := None;
       set_start_time :=
         Some (if negb (Task.is_active task) then Some now else None) |}.

Definition adjust_request (entry : Entry.t) (pointsAdjustment : Z) : Request :=
  UpdateEntryById (Entry.id entry)
    {| set_total_score := Some (Entry.total_score entry + pointsAdjustment);
       set_rank := None |}.

(** What [write_ranks i l] does to one stored row when the answers to its
    writes are [answers], in order (none left: accepted). *)
Fixpoint ranked_under (answers : list Outcome) (i : Z) (l : list Entry.t)
    (r : Entry.t) : Entry.t :=
  match l with
  | [] => r
  | x :: rest =>
      ranked_under (tl answers) (i + 1) rest
        (match nth 0 answers Accepted with
         | Accepted =>
             if String.eqb (Entry.id r) (Entry.id x) then with_rank (i + 1) r else r
         | Rejected => r
         end)
  end.

(** No stored row has the id [i]. *)
Definition absent {R} (col : R -> string) (i : string) (tbl : list R) : Prop :=
  forall r, In r tbl -> col r <> i.

(** * Properties *)

(** ** The handler monad *)

Lemma bind_run {A B} (m : UI A) (k : A -> UI B) e :
  bind m k e = k (fst (m e)) (snd (m e)).
Proof. unfold bind. now destruct (m e). Qed.

Lemma supabase_accepted rq e :
  answer 0 e = Accepted ->
  supabase rq e =
    (false, {| db := apply_request rq (db e); script := tl (script e);
               sent := sent e ++ [rq]; toasts := toasts e |}).
Proof. unfold supabase. now intros ->. Qed.

Lemma supabase_rejected rq e :
  answer 0 e = Rejected ->
  supabase rq e =
    (true, {| db := db e; script := tl (script e);
              sent := sent e ++ [rq]; toasts := toasts e |}).
Proof. unfold supabase. now intros ->. Qed.

Lemma supabase_step rq e :
  supabase rq e =
    (match answer 0 e with Accepted => false | Rejected => true end,
     {| db := match answer 0 e with
              | Accepted => apply_request rq (db e)
              | Rejected => db e
              end;
        script := tl (script e); sent := sent e ++ [rq]; toasts := toasts e |}).
Proof. unfold supabase. now destruct (answer 0 e). Qed.

Lemma supabase_script rq e : script (snd (supabase rq e)) = tl (script e).
Proof. unfold supabase. now destruct (answer 0 e). Qed.

Lemma supabase_sent rq e : sent (snd (supabase rq e)) = sent e ++ [rq].
Proof. unfold supabase. now destruct (answer 0 e). Qed.

Lemma supabase_toasts rq e : toasts (snd (supabase rq e)) = toasts e.
Proof. unfold supabase. now destruct (answer 0 e). Qed.

Lemma answer_shift k e o : script o = tl (script e) -> answer k o = answer (S k) e.
Proof.
  unfold answer. intros ->. destruct (script e); simpl; [now destruct k | reflexivity].
Qed.

Lemma reliable_shift e o : reliable e -> script o = tl (script e) -> reliable o.
Proof. intros H Ho k. rewrite (answer_shift k e o Ho). apply H. Qed.

Lemma reliable_nil d s t : reliable {| db := d; script := []; sent := s; toasts := t |}.
Proof. intros k. unfold answer. simpl. now destruct k. Qed.

(** ** Tables *)

Lemma update_where_In {R} (col : R -> string) v patch tbl r' :
  In r' (update_where col v patch tbl) <->
  exists r, In r tbl /\ r' = (if String.eqb (col r) v then patch r else r).
Proof.
  unfold update_where. rewrite in_map_iff. split; intros (r & H1 & H2); eauto.
Qed.

Lemma update_where_keeps {R} (col : R -> string) i f (tbl : list R) r :
  In r tbl -> col r <> i -> In r (update_where col i f tbl).
Proof.
  intros Hr Hne. apply update_where_In. exists r. split; [exact Hr|].
  apply String.eqb_neq in Hne. now rewrite Hne.
Qed.

Lemma update_where_adds_nothing {R} (col : R -> string) i f (tbl : list R) r :
  (forall x, col (f x) = col x) ->
  In r (update_where col i f tbl) -> col r <> i -> In r tbl.
Proof.
  intros Hf Hr Hne. apply update_where_In in Hr as (r0 & Hr0 & ->).
  destruct (String.eqb (col r0) i) eqn:E; [|exact Hr0].
  apply String.eqb_eq in E. rewrite Hf in Hne. contradiction.
Qed.

Lemma update_where_fixed {R} (col : R -> string) i f (tbl : list R) :
  update_where col i f tbl = tbl <->
  forall r, In r tbl -> col r = i -> f r = r.
Proof.
  unfold update_where. induction tbl as [|x tbl IH]; simpl.
  - split; [intros _ r [] | reflexivity].
  - split.
    + intros H. injection H as Hx Ht. intros r [<-|Hr] Hc.
      * apply String.eqb_eq in Hc. now rewrite Hc in Hx.
      * now apply (proj1 IH Ht).
    + intros H. f_equal.
      * destruct (String.eqb (col x) i) eqn:E; [|reflexivity].
        apply String.eqb_eq in E. apply H; auto.
      * apply IH. intros r Hr. apply H. now right.
Qed.

(** ** [tasks.find] *)

Lemma is_next_spec task t : TasksTab.is_next task t = true <-> next_after task t.
Proof.
  unfold TasksTab.is_next, next_after.
  rewrite andb_true_iff, Z.eqb_eq, negb_true_iff. tauto.
Qed.

Lemma find_first {A} (p : A -> bool) l x :
  find p l = Some x ->
  exists before after,
    l = before ++ x :: after /\ p x = true /\
    forall y, In y before -> p y = false.
Proof.
  induction l as [|a l IH]; simpl; [discriminate|].
  destruct (p a) eqn:Ha.
  - intros [= ->]. exists [], l. repeat split; auto. intros y [].
  - intros H. destruct (IH H) as (b & c & -> & Hx & Hb).
    exists (a :: b), c. repeat split; auto.
    intros y [<-|Hy]; auto.
Qed.

(** ** Ending a task *)

Lemma rows_ended_after_end i tbl : rows_ended i (update_where Task.id i ended tbl).
Proof.
  intros r Hr Hid. apply update_where_In in Hr as (r0 & _ & ->).
  destruct (String.eqb (Task.id r0) i) eqn:E; [now split|].
  apply String.eqb_neq in E. contradiction.
Qed.

Lemma rows_activated i now tbl r :
  In r (update_where Task.id i (activated now) tbl) -> Task.id r = i ->
  Task.is_active r = true /\ Task.start_time r = Some now.
Proof.
  intros Hr Hid. apply update_where_In in Hr as (r0 & _ & ->).
  destruct (String.eqb (Task.id r0) i) eqn:E; [now split|].
  apply String.eqb_neq in E. contradiction.
Qed.

(** What a confirmed [handleEndTask] does once its first write is
    accepted. *)
Lemma handleEndTask_run tasks now T e :
  answer 0 e = Accepted ->
  let tbl1 := update_where Task.id (Task.id T) ended (workshop_tasks (db e)) in
  exec (TasksTab.handleEndTask tasks true now T) e =
    match find (TasksTab.is_next T) tasks with
    | Some N =>
        {| db := {| workshops := workshops (db e);
                    workshop_tasks :=
                      match answer 1 e with
                      | Accepted =>
                          update_where Task.id (Task.id N) (activated now) tbl1
                      | Rejected => tbl1
                      end;
                    workshop_leaderboard := workshop_leaderboard (db e) |};
           script := tl (tl (script e));
           sent := sent e ++ [end_request T; activate_request now N];
           toasts := toasts e ++ [TaskEndedNextActive (Task.title N)] |}
    | None =>
        {| db := {| workshops := workshops (db e);
                    workshop_tasks := tbl1;
                    workshop_leaderboard := workshop_leaderboard (db e) |};
           script := tl (script e);
           sent := sent e ++ [end_request T];
           toasts := toasts e ++ [TaskEndedNoMore] |}
    end.
Proof.
  intros H. unfold exec, TasksTab.handleEndTask. cbn [negb].
  rewrite bind_run, (supabase_accepted _ e H). cbn [fst snd].
  destruct (find (TasksTab.is_next T) tasks) as [N|]; [|reflexivity].
  rewrite bind_run. unfold supabase.
  rewrite (answer_shift 0 e) by reflexivity.
  destruct (answer 1 e); simpl; rewrite <- app_assoc; reflexivity.
Qed.

(** C1.  A confirmed [handleEndTask(T)] whose ending write the backend
    accepts sets every stored row of [T] to [is_active = false],
    [is_ended = true].  Then, when the in-memory list holds a not-ended task
    of order [T.task_order + 1], the activation write is sent for the first
    such task [N] in list order and for it alone, and once accepted it gives
    the rows of [N] [is_active = true] and [start_time = now] and touches no
    other row; when the list holds no such task, ending [T] is the only
    write. *)
Theorem handleEndTask_ends_then_activates_first_next tasks now T e :
  answer 0 e = Accepted ->
  let e' := exec (TasksTab.handleEndTask tasks true now T) e in
  let tbl1 := update_where Task.id (Task.id T) ended (workshop_tasks (db e)) in
  rows_ended (Task.id T) tbl1 /\
  workshops (db e') = workshops (db e) /\
  workshop_leaderboard (db e') = workshop_leaderboard (db e) /\
  ((exists before N after,
      tasks = before ++ N :: after /\
      next_after T N /\
      (forall t, In t before -> ~ next_after T t) /\
      sent e' = sent e ++ [end_request T; activate_request now N] /\
      (answer 1 e = Accepted ->
       workshop_tasks (db e') =
         update_where Task.id (Task.id N) (activated now) tbl1 /\
       forall r, In r (workshop_tasks (db e')) -> Task.id r = Task.id N ->
                 Task.is_active r = true /\ Task.start_time r = Some now))
   \/
   ((forall t, In t tasks -> ~ next_after T t) /\
    workshop_tasks (db e') = tbl1 /\
    sent e' = sent e ++ [end_request T])).
Proof.
  intros H e' tbl1. subst e'. rewrite (handleEndTask_run tasks now T e H).
  split; [apply rows_ended_after_end|].
  destruct (find (TasksTab.is_next T) tasks) as [N|] eqn:F; simpl.
  - split; [reflexivity|]. split; [reflexivity|]. left.
    destruct (find_first _ _ _ F) as (b & a & -> & HN & Hb).
    exists b, N, a. split; [reflexivity|].
    split; [now apply is_next_spec|].
    split.
    { intros t Ht Hn. apply is_next_spec in Hn. rewrite (Hb t Ht) in Hn.
      discriminate. }
    split; [reflexivity|].
    intros ->. split; [reflexivity|].
    intros r Hr Hid. eapply rows_activated; eauto.
  - split; [reflexivity|]. split; [reflexivity|]. right.
    split.
    { intros t Ht Hn. apply is_next_spec in Hn.
      rewrite (find_none _ _ F t Ht) in Hn. discriminate. }
    split; reflexivity.
Qed.

(** C1 on the tasks with orders 1, 2, 3: ending the first activates the
    second and nothing else; ending the third activates nothing. *)
Lemma handleEndTask_three_tasks_witness :
  answer 0 (sample_env []) = Accepted /\
  workshop_tasks
    (db (exec (TasksTab.handleEndTask three_tasks true "12:00"
                 (sample_task "t1" 1 true)) (sample_env []))) =
  [ended (sample_task "t1" 1 true); activated "12:00" (sample_task "t2" 2 false);
   sample_task "t3" 3 false] /\
  workshop_tasks
    (db (exec (TasksTab.handleEndTask three_tasks true "12:00"
                 (sample_task "t3" 3 false)) (sample_env []))) =
  [sample_task "t1" 1 true; sample_task "t2" 2 false;
   ended (sample_task "t3" 3 false)].
Proof.
  split; [reflexivity|]. split.
  - destruct (handleEndTask_ends_then_activates_first_next three_tasks "12:00"
                (sample_task "t1" 1 true) (sample_env []) eq_refl)
      as (_ & _ & _ & [(b & N & a & _ & _ & _ & _ & _) | (Hno & _)]).
    + reflexivity.
    + exfalso. apply (Hno (sample_task "t2" 2 false)).
      * right; left; reflexivity.
      * split; reflexivity.
  - destruct (handleEndTask_ends_then_activates_first_next three_tasks "12:00"
                (sample_task "t3" 3 false) (sample_env []) eq_refl)
      as (_ & _ & _ & [(b & N & a & _ & _ & _ & _ & _) | (_ & Htbl & _)]).
    + reflexivity.
    + exact Htbl.
Defined.

(** ** Activating an ended task *)

(** C3.  [toggleTaskActive(T)] on a task with [is_ended = true] shows the
    destructive notice "Cannot activate an ended task" and returns: it
    sends no request, so the backend, and with it every stored field of
    [T], is as before. *)
Theorem toggleTaskActive_ended_is_refused now T e :
  Task.is_ended T = true ->
  let e' := exec (TasksTab.toggleTaskActive now T) e in
  db e' = db e /\ sent e' = sent e /\ script e' = script e /\
  toasts e' = toasts e ++ [CannotActivateEnded] /\
  destructive CannotActivateEnded = true.
Proof.
  intros H. unfold exec, TasksTab.toggleTaskActive. rewrite H.
  repeat split; reflexivity.
Qed.

Lemma toggleTaskActive_ended_witness :
  Task.is_ended (ended (sample_task "t1" 1 true)) = true /\
  db (exec (TasksTab.toggleTaskActive "12:00" (ended (sample_task "t1" 1 true)))
        (sample_env [])) = db (sample_env []).
Proof.
  split; [reflexivity|].
  apply (toggleTaskActive_ended_is_refused "12:00"
           (ended (sample_task "t1" 1 true)) (sample_env [])).
  reflexivity.
Defined.

(** ** Ending a task twice *)

Lemma handleEndTask_reliable tasks now T e :
  reliable e -> reliable (exec (TasksTab.handleEndTask tasks true now T) e).
Proof.
  intros H. rewrite (handleEndTask_run tasks now T e (H 0%nat)).
  destruct (find (TasksTab.is_next T) tasks).
  - eapply reliable_shift with (e := {| db := db e; script := tl (script e);
                                        sent := sent e; toasts := toasts e |}).
    + eapply reliable_shift; [exact H | reflexivity].
    + reflexivity.
  - eapply reliable_shift; [exact H | reflexivity].
Qed.

Lemma unique_id_same (l : list Task.t) x y :
  NoDup (map Task.id l) -> In x l -> In y l -> Task.id x = Task.id y -> x = y.
Proof.
  induction l as [|a l IH]; simpl; [tauto|].
  intros Hnd Hx Hy Hid. inversion Hnd as [|? ? Hnotin Hnd']; subst.
  destruct Hx as [<-|Hx], Hy as [<-|Hy]; auto.
  - exfalso. apply Hnotin. rewrite Hid. now apply in_map.
  - exfalso. apply Hnotin. rewrite <- Hid. now apply in_map.
Qed.

(** The task that [find] picks is another row than [T] when [T] itself is
    one of the listed tasks and ids are unique. *)
Lemma next_has_other_id tasks T N :
  In T tasks -> NoDup (map Task.id tasks) ->
  find (TasksTab.is_next T) tasks = Some N -> Task.id N <> Task.id T.
Proof.
  intros HT Hnd F Hid.
  pose proof (find_some _ _ F) as [HN Hp]. apply is_next_spec in Hp as [Ho _].
  assert (N = T) by (eapply unique_id_same; eauto). subst N. lia.
Qed.

Lemma rows_ended_frame i j f tbl :
  j <> i -> (forall r, Task.id (f r) = Task.id r) ->
  rows_ended i tbl -> rows_ended i (update_where Task.id j f tbl).
Proof.
  intros Hne Hf H r Hr Hid. apply update_where_In in Hr as (r0 & Hr0 & ->).
  destruct (String.eqb (Task.id r0) j) eqn:E.
  - apply String.eqb_eq in E. rewrite Hf in Hid. congruence.
  - now apply H.
Qed.

Lemma end_again i tbl : rows_ended i tbl -> update_where Task.id i ended tbl = tbl.
Proof.
  intros H. unfold update_where. rewrite <- (map_id tbl) at 2.
  apply map_ext_in. intros r Hr.
  destruct (String.eqb (Task.id r) i) eqn:E; [|reflexivity].
  apply String.eqb_eq in E. destruct (H r Hr E) as [Ha He].
  destruct r; simpl in *. subst. reflexivity.
Qed.

Lemma handleEndTask_rows_ended tasks now T e :
  answer 0 e = Accepted -> In T tasks -> NoDup (map Task.id tasks) ->
  rows_ended (Task.id T)
    (workshop_tasks (db (exec (TasksTab.handleEndTask tasks true now T) e))).
Proof.
  intros H HT Hnd. rewrite (handleEndTask_run tasks now T e H).
  destruct (find (TasksTab.is_next T) tasks) as [N|] eqn:F; simpl.
  - destruct (answer 1 e); [|apply rows_ended_after_end].
    apply rows_ended_frame; [| reflexivity | apply rows_ended_after_end].
    eapply next_has_other_id; eauto.
  - apply rows_ended_after_end.
Qed.

(** C4 as stated fails: with the tasks of orders 1, 2, 3, the second
    [handleEndTask] on the first task stamps the second task's [start_time]
    anew, so the stored state after the second call differs from the state
    after the first. *)
Lemma handleEndTask_second_call_rewrites_next :
  let T := sample_task "t1" 1 true in
  let e1 := exec (TasksTab.handleEndTask three_tasks true "12:00" T) (sample_env []) in
  let e2 := exec (TasksTab.handleEndTask three_tasks true "12:05" T) e1 in
  workshop_tasks (db e1) =
    [ended T; activated "12:00" (sample_task "t2" 2 false); sample_task "t3" 3 false] /\
  workshop_tasks (db e2) =
    [ended T; activated "12:05" (sample_task "t2" 2 false); sample_task "t3" 3 false] /\
  db e2 <> db e1.
Proof.
  intros T e1 e2. split; [reflexivity|]. split; [reflexivity|].
  vm_compute. discriminate.
Qed.

Lemma activated_fixed now r :
  activated now r = r <->
  Task.is_active r = true /\ Task.start_time r = Some now.
Proof.
  split.
  - intros H. rewrite <- H. split; reflexivity.
  - intros [Ha Hs]. destruct r; simpl in *. subst. reflexivity.
Qed.

(** C4, amended.  Two confirmed [handleEndTask(T)] calls against an
    accepting backend, [T] being one of the listed tasks and ids unique:
    after each call the stored rows of [T] have [is_active = false] and
    [is_ended = true]; the second call shows no error notice and changes
    nothing of [T], of the workshops or of the leaderboard.  Its only
    effect on stored state is to apply [is_active = true],
    [start_time = now2] once more to the rows of the first not-ended task
    [N] of order [T.task_order + 1] in its list: the stored state is as
    after the first call exactly when every stored row of [N] already has
    those two values, and with no such task in the list it is unchanged. *)
Theorem handleEndTask_twice tasks1 tasks2 now1 now2 T e :
  reliable e ->
  In T tasks1 -> NoDup (map Task.id tasks1) ->
  In T tasks2 -> NoDup (map Task.id tasks2) ->
  let e1 := exec (TasksTab.handleEndTask tasks1 true now1 T) e in
  let e2 := exec (TasksTab.handleEndTask tasks2 true now2 T) e1 in
  rows_ended (Task.id T) (workshop_tasks (db e1)) /\
  rows_ended (Task.id T) (workshop_tasks (db e2)) /\
  (exists t, toasts e2 = toasts e1 ++ [t] /\ destructive t = false) /\
  workshops (db e2) = workshops (db e1) /\
  workshop_leaderboard (db e2) = workshop_leaderboard (db e1) /\
  (forall r, Task.id r = Task.id T ->
             (In r (workshop_tasks (db e2)) <-> In r (workshop_tasks (db e1)))) /\
  match find (TasksTab.is_next T) tasks2 with
  | Some N =>
      workshop_tasks (db e2) =
        update_where Task.id (Task.id N) (activated now2) (workshop_tasks (db e1)) /\
      (db e2 = db e1 <->
       forall r, In r (workshop_tasks (db e1)) -> Task.id r = Task.id N ->
                 Task.is_active r = true /\ Task.start_time r = Some now2)
  | None => db e2 = db e1
  end.
Proof.
  intros H HT1 Hnd1 HT2 Hnd2 e1 e2.
  assert (H1 : reliable e1) by now apply handleEndTask_reliable.
  assert (R1 : rows_ended (Task.id T) (workshop_tasks (db e1)))
    by (apply handleEndTask_rows_ended; auto).
  split; [exact R1|].
  split; [apply handleEndTask_rows_ended; auto|].
  subst e2. rewrite (handleEndTask_run tasks2 now2 T e1 (H1 0%nat)).
  rewrite (end_again _ _ R1), (H1 1%nat).
  destruct (find (TasksTab.is_next T) tasks2) as [N|] eqn:F;
    cbn [db toasts workshops workshop_tasks workshop_leaderboard].
  - assert (Hne : Task.id N <> Task.id T) by (eapply next_has_other_id; eauto).
    split; [eexists; split; reflexivity|].
    split; [reflexivity|]. split; [reflexivity|].
    split.
    { intros r Hid. split.
      - intros Hr. apply update_where_adds_nothing in Hr; auto. congruence.
      - intros Hr. apply update_where_keeps; auto. congruence. }
    split; [reflexivity|].
    split.
    + intros Heq r Hr Hid. apply activated_fixed.
      apply (f_equal workshop_tasks) in Heq. cbn [workshop_tasks] in Heq.
      exact (proj1 (update_where_fixed _ _ _ _) Heq r Hr Hid).
    + intros Hall.
      rewrite (proj2 (update_where_fixed Task.id (Task.id N) (activated now2)
                        (workshop_tasks (db e1)))).
      * now destruct (db e1).
      * intros r Hr Hid. apply activated_fixed. now apply Hall.
  - split; [eexists; split; reflexivity|].
    split; [reflexivity|]. split; [reflexivity|].
    split; [intros r _; reflexivity|].
    now destruct (db e1).
Qed.

Lemma handleEndTask_twice_witness :
  let T := sample_task "t1" 1 true in
  let e1 := exec (TasksTab.handleEndTask three_tasks true "12:00" T) (sample_env []) in
  let e2 := exec (TasksTab.handleEndTask three_tasks true "12:05" T) e1 in
  reliable (sample_env []) /\ In T three_tasks /\
  NoDup (map Task.id three_tasks) /\
  rows_ended "t1" (workshop_tasks (db e2)).
Proof.
  intros T e1 e2.
  assert (H : reliable (sample_env [])) by apply reliable_nil.
  assert (HT : In T three_tasks) by (left; reflexivity).
  assert (Hnd : NoDup (map Task.id three_tasks)).
  { simpl. repeat constructor; simpl; intuition discriminate. }
  split; [exact H|]. split; [exact HT|]. split; [exact Hnd|].
  exact (proj1 (proj2 (handleEndTask_twice three_tasks three_tasks "12:00" "12:05"
                         T (sample_env []) H HT Hnd HT Hnd))).
Defined.

(** ** Ending and starting a workshop *)

Lemma tasks_ended_after_bulk w tbl :
  tasks_ended w (update_where Task.workshop_id w ended tbl).
Proof.
  intros r Hr Hw. apply update_where_In in Hr as (r0 & _ & ->).
  destruct (String.eqb (Task.workshop_id r0) w) eqn:E; [now split|].
  apply String.eqb_neq in E. contradiction.
Qed.

Lemma status_after_update w st p tbl :
  set_status p = Some st ->
  status_is w st (update_where Workshop.id w (patch_workshop p) tbl).
Proof.
  intros Hp r Hr Hw. apply update_where_In in Hr as (r0 & _ & ->).
  destruct (String.eqb (Workshop.id r0) w) eqn:E.
  - simpl. now rewrite Hp.
  - apply String.eqb_neq in E. contradiction.
Qed.

(** [handleEndWorkshop], whatever the two answers are. *)
Lemma handleEndWorkshop_run w st e :
  OverviewTab.handleEndWorkshop w st e =
    (match answer 1 e with Accepted => "completed" | Rejected => st end,
     {| db :=
          {| workshops :=
               match answer 1 e with
               | Accepted => update_where Workshop.id w completed (workshops (db e))
               | Rejected => workshops (db e)
               end;
             workshop_tasks :=
               match answer 0 e with
               | Accepted =>
                   update_where Task.workshop_id w ended (workshop_tasks (db e))
               | Rejected => workshop_tasks (db e)
               end;
             workshop_leaderboard := workshop_leaderboard (db e) |};
        script := tl (tl (script e));
        sent := sent e ++ [end_all_tasks_request w; complete_request w];
        toasts := toasts e ++ [match answer 1 e with
                               | Accepted => WorkshopCompleted
                               | Rejected => ErrorEndingWorkshop
                               end] |}).
Proof.
  unfold OverviewTab.handleEndWorkshop.
  rewrite bind_run, supabase_step. cbn [fst snd].
  rewrite bind_run, supabase_step. cbn [fst snd db script sent toasts].
  rewrite (answer_shift 0 e) by reflexivity.
  destruct (db e) as [ws ts lb].
  destruct (answer 0 e), (answer 1 e); unfold bind, toast, ret; simpl;
    rewrite <- app_assoc; reflexivity.
Qed.

(** C5.  On a live workshop the End button runs [handleEndWorkshop]; when
    the backend accepts both writes, the bulk write on the workshop's tasks
    goes first and the status write second, every task of the workshop ends
    up with [is_active = false] and [is_ended = true], the tasks of other
    workshops are untouched, and the workshop's status is 'completed', in
    the backend and in the component. *)
Theorem handleEndWorkshop_cascades w e :
  answer 0 e = Accepted -> answer 1 e = Accepted ->
  let e' := exec (OverviewTab.finish w "live") e in
  sent e' = sent e ++ [end_all_tasks_request w; complete_request w] /\
  workshop_tasks (db e') =
    update_where Task.workshop_id w ended (workshop_tasks (db e)) /\
  tasks_ended w (workshop_tasks (db e')) /\
  workshops (db e') = update_where Workshop.id w completed (workshops (db e)) /\
  status_is w "completed" (workshops (db e')) /\
  result (OverviewTab.finish w "live") e = "completed" /\
  toasts e' = toasts e ++ [WorkshopCompleted].
Proof.
  intros H0 H1. unfold exec, result, OverviewTab.finish.
  change (OverviewTab.endButtonShown "live") with true. cbv iota.
  rewrite (handleEndWorkshop_run w "live" e), H0, H1. simpl.
  repeat apply conj; try reflexivity.
  - apply tasks_ended_after_bulk.
  - now apply status_after_update.
Qed.

Lemma handleEndWorkshop_cascades_witness :
  let e' := exec (OverviewTab.finish "w1" "live") (sample_env []) in
  answer 0 (sample_env []) = Accepted /\ answer 1 (sample_env []) = Accepted /\
  workshop_tasks (db e') = map ended three_tasks /\
  workshops (db e') = [completed (sample_workshop "live")].
Proof.
  intros e'. split; [reflexivity|]. split; [reflexivity|].
  destruct (handleEndWorkshop_cascades "w1" (sample_env []) eq_refl eq_refl)
    as (_ & Htbl & _ & Hws & _).
  split; [exact Htbl | exact Hws].
Defined.

(** C6.  When the backend accepts the bulk task write and rejects the
    status write, nothing is rolled back: every task of the workshop is
    ended and inactive, while the workshops table is as before -- a workshop
    that was 'live' is still 'live' -- and the component keeps its status and
    shows the error notice. *)
Theorem handleEndWorkshop_not_atomic w st e :
  answer 0 e = Accepted -> answer 1 e = Rejected ->
  let e' := exec (OverviewTab.handleEndWorkshop w st) e in
  workshop_tasks (db e') =
    update_where Task.workshop_id w ended (workshop_tasks (db e)) /\
  tasks_ended w (workshop_tasks (db e')) /\
  workshops (db e') = workshops (db e) /\
  (status_is w "live" (workshops (db e)) ->
   status_is w "live" (workshops (db e'))) /\
  result (OverviewTab.handleEndWorkshop w st) e = st /\
  toasts e' = toasts e ++ [ErrorEndingWorkshop].
Proof.
  intros H0 H1. unfold exec, result.
  rewrite (handleEndWorkshop_run w st e), H0, H1. simpl.
  repeat apply conj; try reflexivity; auto.
  apply tasks_ended_after_bulk.
Qed.

Lemma handleEndWorkshop_not_atomic_witness :
  let e := sample_env [Accepted; Rejected] in
  let e' := exec (OverviewTab.handleEndWorkshop "w1" "live") e in
  answer 0 e = Accepted /\ answer 1 e = Rejected /\
  workshop_tasks (db e') = map ended three_tasks /\
  workshops (db e') = [sample_workshop "live"].
Proof.
  intros e e'. split; [reflexivity|]. split; [reflexivity|].
  destruct (handleEndWorkshop_not_atomic "w1" "live" e eq_refl eq_refl)
    as (Htbl & _ & Hws & _).
  split; [exact Htbl | exact Hws].
Defined.

(** C10.  [handleEndWorkshop] never looks at the answer to the bulk task
    write: whatever the answers, the status write is sent right after it;
    and when the task write is rejected and the status write accepted, the
    tasks table is unchanged while the workshop's status is 'completed' and
    the component reports success. *)
Theorem handleEndWorkshop_ignores_task_write_result w st :
  (forall e,
     sent (exec (OverviewTab.handleEndWorkshop w st) e) =
     sent e ++ [end_all_tasks_request w; complete_request w]) /\
  (forall e,
     answer 0 e = Rejected -> answer 1 e = Accepted ->
     let e' := exec (OverviewTab.handleEndWorkshop w st) e in
     workshop_tasks (db e') = workshop_tasks (db e) /\
     workshops (db e') = update_where Workshop.id w completed (workshops (db e)) /\
     status_is w "completed" (workshops (db e')) /\
     result (OverviewTab.handleEndWorkshop w st) e = "completed" /\
     toasts e' = toasts e ++ [WorkshopCompleted]).
Proof.
  split.
  - intros e. unfold exec. now rewrite handleEndWorkshop_run.
  - intros e H0 H1. unfold exec, result.
    rewrite (handleEndWorkshop_run w st e), H0, H1. simpl.
    repeat apply conj; try reflexivity.
    now apply status_after_update.
Qed.

Lemma handleEndWorkshop_ignores_task_write_result_witness :
  let e := sample_env [Rejected; Accepted] in
  let e' := exec (OverviewTab.handleEndWorkshop "w1" "live") e in
  answer 0 e = Rejected /\ answer 1 e = Accepted /\
  workshop_tasks (db e') = three_tasks /\
  status_is "w1" "completed" (workshops (db e')) /\
  ~ tasks_ended "w1" (workshop_tasks (db e')).
Proof.
  intros e e'. split; [reflexivity|]. split; [reflexivity|].
  destruct (proj2 (handleEndWorkshop_ignores_task_write_result "w1" "live")
              e eq_refl eq_refl)
    as (Htbl & _ & Hst & _).
  split; [exact Htbl|]. split; [exact Hst|].
  intros H. destruct (H (sample_task "t1" 1 true)) as [Ha _].
  - left; reflexivity.
  - reflexivity.
  - discriminate Ha.
Defined.

(** C2 fails on the code.  After a workshop was ended -- status
    'completed' in the backend and in the component -- the Start button is
    rendered, because it is hidden only for 'live', and [handleStartWorkshop]
    has no check of its own: the start operation is carried out, not
    rejected, and the status goes back to 'live'. *)
Theorem start_after_end_is_not_rejected w now e :
  reliable e ->
  let s1 := result (OverviewTab.finish w "live") e in
  let e1 := exec (OverviewTab.finish w "live") e in
  let e2 := exec (OverviewTab.start w now s1) e1 in
  s1 = "completed" /\
  status_is w "completed" (workshops (db e1)) /\
  OverviewTab.startButtonShown s1 = true /\
  sent e2 = sent e1 ++ [start_request w now] /\
  status_is w "live" (workshops (db e2)) /\
  result (OverviewTab.start w now s1) e1 = "live" /\
  toasts e2 = toasts e1 ++ [WorkshopStarted].
Proof.
  intros H s1 e1 e2.
  assert (Hrun := handleEndWorkshop_run w "live" e).
  rewrite (H 0%nat), (H 1%nat) in Hrun.
  change (OverviewTab.handleEndWorkshop w "live") with (OverviewTab.finish w "live")
    in Hrun.
  subst s1 e1 e2. unfold exec, result. rewrite Hrun. cbn [fst snd].
  unfold OverviewTab.start.
  change (OverviewTab.startButtonShown "completed") with true. cbv iota.
  unfold OverviewTab.handleStartWorkshop.
  rewrite bind_run, supabase_accepted.
  2:{ rewrite (answer_shift 0 {| db := db e; script := tl (script e);
                                 sent := sent e; toasts := toasts e |})
        by reflexivity.
      rewrite (answer_shift 1 e) by reflexivity. apply H. }
  cbn [fst snd]. rewrite bind_run. simpl.
  repeat apply conj; try reflexivity.
  - now apply status_after_update.
  - now apply status_after_update.
Qed.

Lemma start_after_end_witness :
  let e1 := exec (OverviewTab.finish "w1" "live") (sample_env []) in
  let e2 := exec (OverviewTab.start "w1" "13:00" "completed") e1 in
  reliable (sample_env []) /\
  workshops (db e1) = [completed (sample_workshop "live")] /\
  workshops (db e2) = [live "13:00" (completed (sample_workshop "live"))] /\
  status_is "w1" "live" (workshops (db e2)).
Proof.
  intros e1 e2.
  assert (H : reliable (sample_env [])) by apply reliable_nil.
  split; [exact H|]. split; [reflexivity|]. split; [reflexivity|].
  exact (proj1 (proj2 (proj2 (proj2 (proj2
    (start_after_end_is_not_rejected "w1" "13:00" (sample_env []) H)))))).
Defined.

(** ** The leaderboard *)

Section Sorting.

Import LeaderboardTab.

Lemma insert_perm x l : Permutation (insert by_score_desc x l) (x :: l).
Proof.
  induction l as [|y l IH]; simpl; [reflexivity|].
  destruct (by_score_desc x y <=? 0); [reflexivity|].
  rewrite IH. apply perm_swap.
Qed.

Lemma sort_perm l : Permutation (sort by_score_desc l) l.
Proof.
  induction l as [|x l IH]; simpl; [reflexivity|].
  rewrite insert_perm. now constructor.
Qed.

Lemma insert_sorted x l :
  StronglySorted score_desc l ->
  StronglySorted score_desc (insert by_score_desc x l).
Proof.
  induction 1 as [|y l Hs IH Hy]; simpl.
  - repeat constructor.
  - destruct (by_score_desc x y <=? 0) eqn:E.
    + apply Z.leb_le in E. unfold by_score_desc in E.
      constructor; [now constructor|].
      constructor; [unfold score_desc; lia|].
      eapply Forall_impl; [|exact Hy]. unfold score_desc. intros; lia.
    + apply Z.leb_gt in E. unfold by_score_desc in E.
      constructor; [exact IH|].
      rewrite insert_perm. constructor; [unfold score_desc; lia | exact Hy].
Qed.

Lemma sort_sorted l : StronglySorted score_desc (sort by_score_desc l).
Proof.
  induction l as [|x l IH]; simpl; [constructor | now apply insert_sorted].
Qed.

(** Entries of equal score keep their order: [x] never moves past an
    entry with its own score. *)
Lemma insert_stable v x l :
  filter (has_score v) (insert by_score_desc x l) = filter (has_score v) (x :: l).
Proof.
  induction l as [|y l IH]; [reflexivity|].
  cbn [insert]. destruct (by_score_desc x y <=? 0) eqn:E; [reflexivity|].
  apply Z.leb_gt in E. unfold by_score_desc in E.
  cbn [filter] in *. rewrite IH.
  unfold has_score.
  destruct (Entry.total_score x =? v) eqn:Ex,
           (Entry.total_score y =? v) eqn:Ey; try reflexivity.
  apply Z.eqb_eq in Ex, Ey. lia.
Qed.

Lemma sort_stable v l :
  filter (has_score v) (sort by_score_desc l) = filter (has_score v) l.
Proof.
  induction l as [|x l IH]; [reflexivity|].
  cbn [sort fold_right]. fold (sort by_score_desc l).
  rewrite insert_stable. cbn [filter]. now rewrite IH.
Qed.

End Sorting.

Lemma ranked_id i l r : Entry.id (ranked i l r) = Entry.id r.
Proof.
  revert i r. induction l as [|x l IH]; intros i r; simpl; [reflexivity|].
  rewrite IH. now destruct (String.eqb (Entry.id r) (Entry.id x)).
Qed.

Lemma ranked_score i l r : Entry.total_score (ranked i l r) = Entry.total_score r.
Proof.
  revert i r. induction l as [|x l IH]; intros i r; simpl; [reflexivity|].
  rewrite IH. now destruct (String.eqb (Entry.id r) (Entry.id x)).
Qed.

Lemma ranked_other i l r : ~ In (Entry.id r) (map Entry.id l) -> ranked i l r = r.
Proof.
  revert i. induction l as [|x l IH]; intros i Hn; simpl; [reflexivity|].
  simpl in Hn. destruct (String.eqb (Entry.id r) (Entry.id x)) eqn:E.
  - apply String.eqb_eq in E. exfalso. apply Hn. now left.
  - apply IH. tauto.
Qed.

(** With unique ids, the row of the entry at position [k] ends with rank
    [i + k + 1]. *)
Lemma ranked_at i l k x r :
  NoDup (map Entry.id l) -> nth_error l k = Some x -> Entry.id r = Entry.id x ->
  Entry.rank (ranked i l r) = Some (i + Z.of_nat k + 1).
Proof.
  revert i k r. induction l as [|y l IH]; intros i k r Hnd Hk Hid.
  - now destruct k.
  - inversion Hnd as [|? ? Hnotin Hnd']; subst. destruct k as [|k]; simpl in Hk.
    + injection Hk as ->. simpl. rewrite Hid, String.eqb_refl.
      rewrite ranked_other.
      * simpl. f_equal. lia.
      * simpl. now rewrite Hid.
    + simpl. destruct (String.eqb (Entry.id r) (Entry.id y)) eqn:E.
      * apply String.eqb_eq in E. exfalso. apply Hnotin. rewrite <- E, Hid.
        apply in_map. eapply nth_error_In; eauto.
      * rewrite (IH (i + 1) k r Hnd' Hk Hid). f_equal. lia.
Qed.

Lemma write_ranks_step i x rest e :
  exec (LeaderboardTab.write_ranks i (x :: rest)) e =
  exec (LeaderboardTab.write_ranks (i + 1) rest)
    (snd (supabase (UpdateEntryById (Entry.id x)
                      {| set_total_score := None; set_rank := Some (i + 1) |}) e)).
Proof. unfold exec. cbn [LeaderboardTab.write_ranks]. now rewrite bind_run. Qed.

Lemma write_ranks_sent i l e :
  sent (exec (LeaderboardTab.write_ranks i l) e) = sent e ++ rank_requests i l.
Proof.
  revert i e. induction l as [|x l IH]; intros i e.
  - simpl. now rewrite app_nil_r.
  - rewrite write_ranks_step, IH, supabase_sent. simpl. now rewrite <- app_assoc.
Qed.

Lemma write_ranks_toasts i l e :
  toasts (exec (LeaderboardTab.write_ranks i l) e) = toasts e.
Proof.
  revert i e. induction l as [|x l IH]; intros i e; [reflexivity|].
  now rewrite write_ranks_step, IH, supabase_toasts.
Qed.

Lemma write_ranks_table i l e :
  reliable e ->
  workshop_leaderboard (db (exec (LeaderboardTab.write_ranks i l) e)) =
  map (ranked i l) (workshop_leaderboard (db e)).
Proof.
  revert i e. induction l as [|x l IH]; intros i e H.
  - simpl. now rewrite map_id.
  - rewrite write_ranks_step, IH.
    + rewrite (supabase_accepted _ e (H 0%nat)). simpl.
      unfold update_where. rewrite map_map. reflexivity.
    + eapply reliable_shift; [exact H | apply supabase_script].
Qed.

Lemma refreshLeaderboard_exec l e :
  let e1 := exec (LeaderboardTab.write_ranks 0
                    (LeaderboardTab.sort LeaderboardTab.by_score_desc l)) e in
  exec (LeaderboardTab.refreshLeaderboard l) e =
  {| db := db e1; script := script e1; sent := sent e1;
     toasts := toasts e1 ++ [LeaderboardRefreshed] |}.
Proof.
  unfold exec, LeaderboardTab.refreshLeaderboard. now rewrite bind_run.
Qed.

(** C7 as stated fails: on the entries A, B, C, D with scores 30, 50, 50,
    10 the ranks stored by [refreshLeaderboard] are not A=4, B=1, C=2,
    D=3. *)
Lemma refreshLeaderboard_example_not_as_stated :
  let e' := exec (LeaderboardTab.refreshLeaderboard four_entries) (sample_env []) in
  ~ (LeaderboardTab.stored_rank "A" (db e') = Some 4 /\
     LeaderboardTab.stored_rank "B" (db e') = Some 1 /\
     LeaderboardTab.stored_rank "C" (db e') = Some 2 /\
     LeaderboardTab.stored_rank "D" (db e') = Some 3).
Proof. intros e' (HA & _). vm_compute in HA. discriminate HA. Qed.

(** C7, amended.  [refreshLeaderboard] orders a copy of the entries by
    [total_score] descending, entries of equal score staying in their prior
    order (a stable sort), and writes rank [position + 1] for each, one
    request per entry in that order; with unique ids and an accepting
    backend the stored rank of the entry at position [k] is [k + 1].  For
    the scores 30, 50, 50, 10 over A, B, C, D the order is B, C, A, D and the
    ranks are A=3, B=1, C=2, D=4, with B before C. *)
Theorem refreshLeaderboard_ranks_by_stable_descending_sort :
  (forall leaderboard e,
     let sortedEntries := LeaderboardTab.sort LeaderboardTab.by_score_desc leaderboard in
     let e' := exec (LeaderboardTab.refreshLeaderboard leaderboard) e in
     Permutation sortedEntries leaderboard /\
     StronglySorted score_desc sortedEntries /\
     (forall v, filter (has_score v) sortedEntries = filter (has_score v) leaderboard) /\
     sent e' = sent e ++ rank_requests 0 sortedEntries /\
     (reliable e -> NoDup (map Entry.id leaderboard) ->
      forall k x r,
        nth_error sortedEntries k = Some x ->
        In r (workshop_leaderboard (db e')) -> Entry.id r = Entry.id x ->
        Entry.rank r = Some (Z.of_nat k + 1))) /\
  (let e' := exec (LeaderboardTab.refreshLeaderboard four_entries) (sample_env []) in
   map Entry.id (LeaderboardTab.sort LeaderboardTab.by_score_desc four_entries) =
     ["B"; "C"; "A"; "D"]%string /\
   LeaderboardTab.stored_rank "A" (db e') = Some 3 /\
   LeaderboardTab.stored_rank "B" (db e') = Some 1 /\
   LeaderboardTab.stored_rank "C" (db e') = Some 2 /\
   LeaderboardTab.stored_rank "D" (db e') = Some 4).
Proof.
  split.
  - intros l e s e'. subst s e'.
    split; [apply sort_perm|]. split; [apply sort_sorted|].
    split; [intros v; apply sort_stable|].
    rewrite refreshLeaderboard_exec. cbn [db sent].
    split; [apply write_ranks_sent|].
    intros H Hnd k x r Hk Hr Hid.
    rewrite write_ranks_table in Hr by exact H.
    apply in_map_iff in Hr as (r0 & <- & _).
    rewrite ranked_id in Hid.
    rewrite (ranked_at 0 _ k x r0); auto.
    eapply Permutation_NoDup; [|exact Hnd].
    apply Permutation_map. symmetry. apply sort_perm.
  - repeat split; reflexivity.
Qed.

Lemma refreshLeaderboard_witness :
  reliable (sample_env []) /\ NoDup (map Entry.id four_entries) /\
  forall r,
    In r (workshop_leaderboard
            (db (exec (LeaderboardTab.refreshLeaderboard four_entries)
                   (sample_env [])))) ->
    Entry.id r = "A"%string -> Entry.rank r = Some 3.
Proof.
  assert (H : reliable (sample_env [])) by apply reliable_nil.
  assert (Hnd : NoDup (map Entry.id four_entries)).
  { simpl. repeat constructor; simpl; intuition discriminate. }
  split; [exact H|]. split; [exact Hnd|].
  intros r Hr Hid.
  destruct (proj1 refreshLeaderboard_ranks_by_stable_descending_sort
              four_entries (sample_env [])) as (_ & _ & _ & _ & Hrank).
  exact (Hrank H Hnd 2%nat (sample_entry "A" 30) r eq_refl Hr Hid).
Defined.

(** C8.  [handleAdjustPoints] on the entry [E] with adjustment [delta]
    (any integer, so totals below zero included) leaves the rank of every
    stored row as it was, whatever the backend answers; when its write is
    accepted, the stored [total_score] of [E] is [E.total_score + delta]
    and no other row changes. *)
Theorem handleAdjustPoints_changes_score_not_rank E delta dialogOpen e :
  let e' := exec (LeaderboardTab.handleAdjustPoints (Some E) delta dialogOpen) e in
  map Entry.rank (workshop_leaderboard (db e')) =
    map Entry.rank (workshop_leaderboard (db e)) /\
  (answer 0 e = Accepted ->
   workshop_leaderboard (db e') =
     update_where Entry.id (Entry.id E)
       (with_score (Entry.total_score E + delta)) (workshop_leaderboard (db e)) /\
   forall r, In r (workshop_leaderboard (db e')) -> Entry.id r = Entry.id E ->
             Entry.total_score r = Entry.total_score E + delta).
Proof.
  intros e'. subst e'. unfold exec, LeaderboardTab.handleAdjustPoints.
  rewrite bind_run, supabase_step. cbn [fst snd].
  destruct (answer 0 e); unfold bind, toast, ret; simpl.
  - split.
    + unfold update_where. rewrite map_map. apply map_ext. intros r.
      now destruct (String.eqb (Entry.id r) (Entry.id E)).
    + intros _. split; [reflexivity|].
      intros r Hr Hid. apply update_where_In in Hr as (r0 & _ & ->).
      destruct (String.eqb (Entry.id r0) (Entry.id E)) eqn:Ex; [reflexivity|].
      apply String.eqb_neq in Ex. contradiction.
  - split; [reflexivity | discriminate].
Qed.

Lemma handleAdjustPoints_witness :
  let e' := exec (LeaderboardTab.handleAdjustPoints
                    (Some (sample_entry "D" 10)) (-25) true) (sample_env []) in
  answer 0 (sample_env []) = Accepted /\
  workshop_leaderboard (db e') =
    [sample_entry "A" 30; sample_entry "B" 50; sample_entry "C" 50;
     sample_entry "D" (-15)].
Proof.
  intros e'. split; [reflexivity|].
  exact (proj1 (proj2 (handleAdjustPoints_changes_score_not_rank
                         (sample_entry "D" 10) (-25) true (sample_env []))
                  eq_refl)).
Defined.

(** ** Group codes *)

Section Codes.

Import GroupsTab.

Lemma digits36_length ds : String.length (digits36 ds) = length ds.
Proof. induction ds; simpl; congruence. Qed.

Lemma toUpperCase_length s : String.length (toUpperCase s) = String.length s.
Proof. induction s; simpl; congruence. Qed.

Lemma substring0_length m s :
String.length (substring 0 m s) = Nat.min m (String.length s).
Proof.
revert m. induction s as [|c s IH]; intros [|m]; simpl; auto.
Qed.

Lemma all_chars_substring0 p m s :
all_chars p s = true -> all_chars p (substring 0 m s) = true.
Proof.
revert m. induction s as [|c s IH]; intros [|m]; simpl; auto.
rewrite !andb_true_iff. intros [Hc Hs]. auto.
Qed.

Lemma all_chars_toUpperCase p s :
all_chars (fun c => p (upper c)) s = true -> all_chars p (toUpperCase s) = true.
Proof.
induction s as [|c s IH]; simpl; auto.
rewrite !andb_true_iff. intros [Hc Hs]. auto.
Qed.

Lemma digit36_upper_alnum d :
(d < 36)%N -> alnum_upper (upper (digit36 d)) = true.
Proof.
intros Hd. rewrite <- (N2Nat.id d).
assert (Hn : (N.to_nat d < 36)%nat) by lia.
clear Hd. revert Hn. generalize (N.to_nat d). clear d. intros n Hn.
do 36 (destruct n as [|n]; [reflexivity|]). lia.
Qed.

Lemma digits36_upper_alnum ds :
Forall (fun d => (d < 36)%N) ds ->
all_chars (fun c => alnum_upper (upper c)) (digits36 ds) = true.
Proof.
induction 1 as [|d ds Hd _ IH]; simpl; [reflexivity|].
now rewrite digit36_upper_alnum, IH.
Qed.

(** What [generateCode] does for every random value: the code is the
  upper-cased first six fraction digits -- all of them when there are
  fewer than six -- and has no character outside [[A-Z0-9]]. *)
Lemma generateCode_at_most_six fraction :
Forall (fun d => (d < 36)%N) fraction ->
String.length (generateCode fraction) = Nat.min 6 (length fraction) /\
all_chars alnum_upper (generateCode fraction) = true.
Proof.
intros H. destruct fraction as [|d ds]; [split; reflexivity|].
assert (E : generateCode (d :: ds) =
            toUpperCase (substring 0 (Nat.min 6 (length (d :: ds)))
                           (digits36 (d :: ds)))).
{ unfold generateCode, js_substring, toString36.
  change (String.append "0." (digits36 (d :: ds)))
    with (String "0" (String "." (digits36 (d :: ds)))).
  cbn [String.length]. rewrite digits36_length.
  set (n := length (d :: ds)).
  replace (Nat.min 2 (S (S n))) with 2%nat by lia.
  replace (Nat.min 8 (S (S n))) with (S (S (Nat.min 6 n))) by lia.
  replace (Nat.min 2 (S (S (Nat.min 6 n)))) with 2%nat by lia.
  replace (Nat.max 2 (S (S (Nat.min 6 n))) - 2)%nat with (Nat.min 6 n) by lia.
  reflexivity. }
rewrite E. split.
- rewrite toUpperCase_length, substring0_length, digits36_length. lia.
- apply all_chars_toUpperCase, all_chars_substring0.
  now apply digits36_upper_alnum.
Qed.

(** C9 fails on the code.  [Math.random()] can return 0.5, which prints
  as "0.i" in base 36, and [generateCode] then returns the one-character
  code "I"; for 0, printed "0", it returns the empty string. *)
Theorem generateCode_of_one_half_is_one_character :
fraction_of 1 1 = [18%N] /\
toString36 (fraction_of 1 1) = "0.i"%string /\
generateCode (fraction_of 1 1) = "I"%string /\
String.length (generateCode (fraction_of 1 1)) = 1%nat /\
generateCode (fraction_of 0 1) = ""%string.
Proof. repeat split; reflexivity. Qed.

End Codes.

(** * Further properties of the handlers *)

(** ** Toggling a task *)

Lemma update_where_absent {R} (col : R -> string) i f (tbl : list R) :
  absent col i tbl -> update_where col i f tbl = tbl.
Proof.
  intros H. unfold update_where. rewrite <- (map_id tbl) at 2.
  apply map_ext_in. intros r Hr.
  destruct (String.eqb (col r) i) eqn:E; [|reflexivity].
  apply String.eqb_eq in E. now apply H in Hr.
Qed.

(** [toggleTaskActive] on a task that is not ended, whatever the answer. *)
Lemma toggleTaskActive_run now T e :
  Task.is_ended T = false ->
  exec (TasksTab.toggleTaskActive now T) e =
    {| db := match answer 0 e with
             | Accepted => apply_request (toggle_request now T) (db e)
             | Rejected => db e
             end;
       script := tl (script e);
       sent := sent e ++ [toggle_request now T];
       toasts := toasts e ++
                 [match answer 0 e with
                  | Rejected => ErrorTogglingTask
                  | Accepted =>
                      if Task.is_active T then TaskDeactivated else TaskActivated
                  end] |}.
Proof.
  intros H. unfold exec, TasksTab.toggleTaskActive. rewrite H.
  rewrite bind_run, supabase_step. cbn [fst snd].
  now destruct (answer 0 e).
Qed.

(** X1.  An accepted [toggleTaskActive(T)] on a task that is not ended
    flips [is_active] of the rows of [T] to the opposite of the in-memory
    value, stamps [start_time = now] when activating and clears it when
    deactivating, and leaves [is_ended] and every other row as they were:
    no other task is deactivated when one is activated. *)
Theorem toggleTaskActive_flips_only_its_rows now T e :
  Task.is_ended T = false -> answer 0 e = Accepted ->
  let e' := exec (TasksTab.toggleTaskActive now T) e in
  workshop_tasks (db e') =
    update_where Task.id (Task.id T) (toggled now T) (workshop_tasks (db e)) /\
  (forall r, In r (workshop_tasks (db e')) -> Task.id r = Task.id T ->
             Task.is_active r = negb (Task.is_active T) /\
             Task.start_time r = (if Task.is_active T then None else Some now)) /\
  (forall r, Task.id r <> Task.id T ->
             (In r (workshop_tasks (db e')) <-> In r (workshop_tasks (db e)))) /\
  map Task.is_ended (workshop_tasks (db e')) =
    map Task.is_ended (workshop_tasks (db e)) /\
  toasts e' = toasts e ++
              [if Task.is_active T then TaskDeactivated else TaskActivated].
Proof.
  intros H H0 e'. subst e'. rewrite (toggleTaskActive_run now T e H), H0.
  cbn [db toasts].
  change (workshop_tasks (apply_request (toggle_request now T) (db e)))
    with (update_where Task.id (Task.id T) (toggled now T) (workshop_tasks (db e))).
  split; [reflexivity|]. split.
  { intros r Hr Hid. apply update_where_In in Hr as (r0 & _ & ->).
    destruct (String.eqb (Task.id r0) (Task.id T)) eqn:E.
    - simpl. now destruct (Task.is_active T).
    - apply String.eqb_neq in E. contradiction. }
  split.
  { intros r Hne. split.
    - intros Hr. apply update_where_adds_nothing in Hr; auto.
    - intros Hr. now apply update_where_keeps. }
  split; [|reflexivity].
  unfold update_where. rewrite map_map. apply map_ext. intros r.
  now destruct (String.eqb (Task.id r) (Task.id T)).
Qed.

Lemma toggleTaskActive_flips_witness :
  let T := sample_task "t2" 2 false in
  let e' := exec (TasksTab.toggleTaskActive "12:00" T) (sample_env []) in
  Task.is_ended T = false /\ answer 0 (sample_env []) = Accepted /\
  workshop_tasks (db e') =
    [sample_task "t1" 1 true; toggled "12:00" T T; sample_task "t3" 3 false].
Proof.
  intros T e'. split; [reflexivity|]. split; [reflexivity|].
  exact (proj1 (toggleTaskActive_flips_only_its_rows "12:00" T (sample_env [])
                  eq_refl eq_refl)).
Defined.

(** X2.  A rejected [toggleTaskActive(T)]: the request was sent, the
    backend is unchanged and the destructive notice "Error toggling task"
    is shown. *)
Theorem toggleTaskActive_rejected now T e :
  Task.is_ended T = false -> answer 0 e = Rejected ->
  let e' := exec (TasksTab.toggleTaskActive now T) e in
  db e' = db e /\ sent e' = sent e ++ [toggle_request now T] /\
  toasts e' = toasts e ++ [ErrorTogglingTask] /\
  destructive ErrorTogglingTask = true.
Proof.
  intros H H0 e'. subst e'. rewrite (toggleTaskActive_run now T e H), H0.
  repeat split.
Qed.

Lemma toggleTaskActive_rejected_witness :
  let T := sample_task "t2" 2 false in
  Task.is_ended T = false /\ answer 0 (sample_env [Rejected]) = Rejected /\
  db (exec (TasksTab.toggleTaskActive "12:00" T) (sample_env [Rejected])) =
  db (sample_env [Rejected]).
Proof.
  intros T. split; [reflexivity|]. split; [reflexivity|].
  exact (proj1 (toggleTaskActive_rejected "12:00" T (sample_env [Rejected])
                  eq_refl eq_refl)).
Defined.

(** X3.  Switching a task on and off again -- the second click on the
    task as re-read, now active -- leaves its rows inactive with
    [start_time] cleared: the table is back to what it was when the rows
    were inactive without a start time before. *)
Theorem toggleTaskActive_on_then_off now1 now2 T T' e :
  Task.is_ended T = false -> Task.is_active T = false ->
  Task.id T' = Task.id T -> Task.is_ended T' = false -> Task.is_active T' = true ->
  answer 0 e = Accepted -> answer 1 e = Accepted ->
  let e1 := exec (TasksTab.toggleTaskActive now1 T) e in
  let e2 := exec (TasksTab.toggleTaskActive now2 T') e1 in
  (forall r, In r (workshop_tasks (db e2)) -> Task.id r = Task.id T ->
             Task.is_active r = false /\ Task.start_time r = None) /\
  ((forall r, In r (workshop_tasks (db e)) -> Task.id r = Task.id T ->
              Task.is_active r = false /\ Task.start_time r = None) ->
   workshop_tasks (db e2) = workshop_tasks (db e)).
Proof.
  intros HT HaT Hid HT' HaT' H0 H1 e1 e2.
  assert (E1 : workshop_tasks (db e1) =
               update_where Task.id (Task.id T) (toggled now1 T)
                 (workshop_tasks (db e))).
  { subst e1. now rewrite (toggleTaskActive_run now1 T e HT), H0. }
  assert (A1 : answer 0 e1 = Accepted).
  { rewrite (answer_shift 0 e); [exact H1|].
    subst e1. now rewrite (toggleTaskActive_run now1 T e HT). }
  assert (E2 : workshop_tasks (db e2) =
               update_where Task.id (Task.id T) (toggled now2 T')
                 (workshop_tasks (db e1))).
  { subst e2. rewrite (toggleTaskActive_run now2 T' e1 HT'), A1, <- Hid.
    reflexivity. }
  rewrite E2, E1. clear E1 E2 A1 e1 e2.
  unfold update_where, toggled. rewrite map_map, HaT, HaT'. cbn [negb].
  split.
  - intros r Hr Hi. apply in_map_iff in Hr as (r0 & <- & _).
    destruct (String.eqb (Task.id r0) (Task.id T)) eqn:E.
    + simpl. rewrite E. now simpl.
    + rewrite E in *. apply String.eqb_neq in E. contradiction.
  - intros Hclean. rewrite <- (map_id (workshop_tasks (db e))) at 2.
    apply map_ext_in. intros r Hr.
    destruct (String.eqb (Task.id r) (Task.id T)) eqn:E.
    + simpl. rewrite E. apply String.eqb_eq in E.
      destruct (Hclean r Hr E) as [Ha Hs].
      destruct r; simpl in *; subst; reflexivity.
    + now rewrite E.
Qed.

Lemma toggleTaskActive_on_then_off_witness :
  let T := sample_task "t2" 2 false in
  let T' := toggled "12:00" T T in
  let e1 := exec (TasksTab.toggleTaskActive "12:00" T) (sample_env []) in
  let e2 := exec (TasksTab.toggleTaskActive "12:10" T') e1 in
  Task.is_ended T = false /\ Task.is_active T = false /\
  Task.id T' = Task.id T /\ Task.is_ended T' = false /\ Task.is_active T' = true /\
  answer 0 (sample_env []) = Accepted /\ answer 1 (sample_env []) = Accepted /\
  workshop_tasks (db e2) = three_tasks.
Proof.
  intros T T' e1 e2. repeat (split; [reflexivity|]).
  apply (proj2 (toggleTaskActive_on_then_off "12:00" "12:10" T T' (sample_env [])
                  eq_refl eq_refl eq_refl eq_refl eq_refl eq_refl eq_refl)).
  intros r [<-|[<-|[<-|[]]]]; intros Hid; try discriminate Hid.
  split; reflexivity.
Defined.

(** ** Writes that match no row *)

Lemma db_eta d :
  {| workshops := workshops d; workshop_tasks := workshop_tasks d;
     workshop_leaderboard := workshop_leaderboard d |} = d.
Proof. now destruct d. Qed.

Lemma absent_after_update {R} (col : R -> string) i j f (tbl : list R) :
  (forall x, col (f x) = col x) ->
  absent col i tbl -> absent col i (update_where col j f tbl).
Proof.
  intros Hf H r Hr. apply update_where_In in Hr as (r0 & Hr0 & ->).
  destruct (String.eqb (col r0) j); [rewrite Hf|]; now apply H.
Qed.

(** X4.  An update that matches no row is not an error.  Toggling a task
    whose row is gone, ending a task whose successor's row is gone, or
    adjusting the points of an entry whose row is gone changes nothing of
    that entity, and the notice shown is the success notice. *)
Theorem gone_row_is_reported_as_success :
  (forall now T e,
     Task.is_ended T = false -> answer 0 e = Accepted ->
     absent Task.id (Task.id T) (workshop_tasks (db e)) ->
     let e' := exec (TasksTab.toggleTaskActive now T) e in
     db e' = db e /\
     toasts e' = toasts e ++
                 [if Task.is_active T then TaskDeactivated else TaskActivated]) /\
  (forall tasks now T N e,
     answer 0 e = Accepted -> answer 1 e = Accepted ->
     find (TasksTab.is_next T) tasks = Some N ->
     absent Task.id (Task.id N) (workshop_tasks (db e)) ->
     let e' := exec (TasksTab.handleEndTask tasks true now T) e in
     workshop_tasks (db e') =
       update_where Task.id (Task.id T) ended (workshop_tasks (db e)) /\
     (forall r, In r (workshop_tasks (db e')) -> Task.id r <> Task.id T ->
                In r (workshop_tasks (db e))) /\
     toasts e' = toasts e ++ [TaskEndedNextActive (Task.title N)]) /\
  (forall E delta dialogOpen e,
     answer 0 e = Accepted ->
     absent Entry.id (Entry.id E) (workshop_leaderboard (db e)) ->
     let e' := exec (LeaderboardTab.handleAdjustPoints (Some E) delta dialogOpen) e in
     db e' = db e /\
     toasts e' = toasts e ++ [PointsAdjusted delta] /\
     result (LeaderboardTab.handleAdjustPoints (Some E) delta dialogOpen) e = false).
Proof.
  split; [|split].
  - intros now T e H H0 Ha e'. subst e'.
    rewrite (toggleTaskActive_run now T e H), H0. cbn [db toasts].
    split; [|reflexivity].
    unfold toggle_request, apply_request.
    rewrite (update_where_absent _ _ _ _ Ha). apply db_eta.
  - intros tasks now T N e H0 H1 F Ha e'. subst e'.
    rewrite (handleEndTask_run tasks now T e H0), F, H1. cbn [db workshop_tasks toasts].
    rewrite update_where_absent
      by (apply absent_after_update; [reflexivity | exact Ha]).
    split; [reflexivity|]. split; [|reflexivity].
    intros r Hr Hne. apply update_where_adds_nothing in Hr; auto.
  - intros E delta dialogOpen e H0 Ha e'. subst e'.
    unfold exec, result, LeaderboardTab.handleAdjustPoints.
    rewrite bind_run, supabase_step, H0. cbn [fst snd].
    unfold bind, toast, ret. cbn [fst snd db toasts apply_request].
    rewrite (update_where_absent _ _ _ _ Ha).
    split; [apply db_eta|]. split; reflexivity.
Qed.

Lemma gone_row_witness :
  let T := sample_task "t9" 9 false in
  let e' := exec (TasksTab.toggleTaskActive "12:00" T) (sample_env []) in
  Task.is_ended T = false /\ answer 0 (sample_env []) = Accepted /\
  absent Task.id "t9" three_tasks /\
  db e' = db (sample_env []) /\ toasts e' = [TaskActivated].
Proof.
  intros T e'.
  assert (Ha : absent Task.id "t9" three_tasks).
  { intros r [<-|[<-|[<-|[]]]]; discriminate. }
  split; [reflexivity|]. split; [reflexivity|]. split; [exact Ha|].
  exact (proj1 gone_row_is_reported_as_success "12:00" T (sample_env [])
           eq_refl eq_refl Ha).
Defined.

(** ** Ending a task: the other paths *)

(** X5.  [handleEndTask] does nothing at all when the confirmation is
    declined; and when the ending write is rejected it stops there: the
    backend is unchanged, no activation is attempted for any next task and
    the destructive notice "Error ending task" is shown. *)
Theorem handleEndTask_declined_or_rejected tasks now T e :
  TasksTab.handleEndTask tasks false now T e = (tt, e) /\
  (answer 0 e = Rejected ->
   let e' := exec (TasksTab.handleEndTask tasks true now T) e in
   db e' = db e /\ sent e' = sent e ++ [end_request T] /\
   toasts e' = toasts e ++ [ErrorEndingTask] /\
   destructive ErrorEndingTask = true).
Proof.
  split; [reflexivity|].
  intros H e'. subst e'. unfold exec, TasksTab.handleEndTask. cbn [negb].
  rewrite bind_run, (supabase_rejected _ e H). cbn [fst snd].
  repeat split.
Qed.

Lemma handleEndTask_rejected_witness :
  let T := sample_task "t1" 1 true in
  let e := sample_env [Rejected] in
  let e' := exec (TasksTab.handleEndTask three_tasks true "12:00" T) e in
  answer 0 e = Rejected /\ db e' = db e /\ length (sent e') = 1%nat.
Proof.
  intros T e e'. split; [reflexivity|].
  destruct (proj2 (handleEndTask_declined_or_rejected three_tasks "12:00" T e)
              eq_refl) as (Hdb & Hs & _).
  split; [exact Hdb|]. fold e' in Hs. now rewrite Hs.
Defined.

(** X6.  The answer to the activation write is never looked at: when it
    is rejected, [T] stays ended, the next task's rows are as before -- not
    activated -- and the notice shown is still "Task ended! Next task ...
    is now active." *)
Theorem handleEndTask_activation_rejected_unnoticed tasks now T N e :
  answer 0 e = Accepted -> answer 1 e = Rejected ->
  find (TasksTab.is_next T) tasks = Some N ->
  let e' := exec (TasksTab.handleEndTask tasks true now T) e in
  workshop_tasks (db e') =
    update_where Task.id (Task.id T) ended (workshop_tasks (db e)) /\
  (forall r, Task.id r <> Task.id T ->
             (In r (workshop_tasks (db e')) <-> In r (workshop_tasks (db e)))) /\
  sent e' = sent e ++ [end_request T; activate_request now N] /\
  toasts e' = toasts e ++ [TaskEndedNextActive (Task.title N)] /\
  destructive (TaskEndedNextActive (Task.title N)) = false.
Proof.
  intros H0 H1 F e'. subst e'.
  rewrite (handleEndTask_run tasks now T e H0), F, H1. cbn [db workshop_tasks sent toasts].
  split; [reflexivity|]. split; [|repeat split].
  intros r Hne. split.
  - intros Hr. apply update_where_adds_nothing in Hr; auto.
  - intros Hr. now apply update_where_keeps.
Qed.

Lemma handleEndTask_activation_rejected_witness :
  let T := sample_task "t1" 1 true in
  let e := sample_env [Accepted; Rejected] in
  let e' := exec (TasksTab.handleEndTask three_tasks true "12:00" T) e in
  answer 0 e = Accepted /\ answer 1 e = Rejected /\
  find (TasksTab.is_next T) three_tasks = Some (sample_task "t2" 2 false) /\
  workshop_tasks (db e') =
    [ended T; sample_task "t2" 2 false; sample_task "t3" 3 false] /\
  toasts e' = [TaskEndedNextActive "t2"].
Proof.
  intros T e e'. do 3 (split; [reflexivity|]).
  destruct (handleEndTask_activation_rejected_unnoticed three_tasks "12:00" T
              (sample_task "t2" 2 false) e eq_refl eq_refl eq_refl)
    as (Htbl & _ & _ & Ht & _).
  split; [exact Htbl | exact Ht].
Defined.

(** X7.  The next task is chosen by the in-memory [is_ended], and the
    activation write sets [is_active] and [start_time] only: a next task
    whose stored row is already ended ends up stored as both active and
    ended. *)
Theorem handleEndTask_activates_stored_ended_row tasks now T N e r :
  answer 0 e = Accepted -> answer 1 e = Accepted ->
  find (TasksTab.is_next T) tasks = Some N ->
  Task.id N <> Task.id T ->
  In r (workshop_tasks (db e)) -> Task.id r = Task.id N ->
  Task.is_ended r = true ->
  let e' := exec (TasksTab.handleEndTask tasks true now T) e in
  Task.is_ended N = false /\
  In (activated now r) (workshop_tasks (db e')) /\
  Task.is_active (activated now r) = true /\
  Task.is_ended (activated now r) = true.
Proof.
  intros H0 H1 F Hne Hr Hid He e'. subst e'.
  rewrite (handleEndTask_run tasks now T e H0), F, H1. cbn [db workshop_tasks].
  split.
  { apply find_some in F as [_ F]. now apply is_next_spec in F as [_ F]. }
  split; [|split; [reflexivity | exact He]].
  apply update_where_In. exists r. split.
  - apply update_where_keeps; [exact Hr | congruence].
  - rewrite Hid, String.eqb_refl. reflexivity.
Qed.

Lemma handleEndTask_activates_stored_ended_row_witness :
  let T := sample_task "t1" 1 true in
  let N := sample_task "t2" 2 false in
  let e := {| db := {| workshops := []; workshop_tasks := [T; ended N];
                       workshop_leaderboard := [] |};
              script := []; sent := []; toasts := [] |} in
  let e' := exec (TasksTab.handleEndTask [T; N] true "12:00" T) e in
  In (activated "12:00" (ended N)) (workshop_tasks (db e')) /\
  Task.is_active (activated "12:00" (ended N)) = true /\
  Task.is_ended (activated "12:00" (ended N)) = true.
Proof.
  intros T N e e'.
  refine (proj2 (handleEndTask_activates_stored_ended_row [T; N] "12:00" T N e
                   (ended N) eq_refl eq_refl eq_refl _ _ eq_refl eq_refl)).
  - discriminate.
  - right; left; reflexivity.
Defined.

Lemma activated_keeps_ended now r : Task.is_ended (activated now r) = Task.is_ended r.
Proof. reflexivity. Qed.

(** X8.  Ended is terminal in the tasks tab: once the ending write of
    [handleEndTask(T)] is accepted, every stored row of [T] has
    [is_ended = true] whatever happens to the activation; for such a row
    the toggle and End buttons are not rendered, Edit and Delete are
    disabled, and [toggleTaskActive] sends nothing. *)
Theorem ended_task_is_terminal_in_tab tasks now T e r :
  answer 0 e = Accepted ->
  In r (workshop_tasks (db (exec (TasksTab.handleEndTask tasks true now T) e))) ->
  Task.id r = Task.id T ->
  Task.is_ended r = true /\
  TaskRow.toggleButtonShown r = false /\ TaskRow.endButtonShown r = false /\
  TaskRow.editDisabled r = true /\ TaskRow.deleteDisabled r = true /\
  TaskRow.statusLabel r = "Ended"%string /\
  forall now' e2,
    db (exec (TasksTab.toggleTaskActive now' r) e2) = db e2 /\
    sent (exec (TasksTab.toggleTaskActive now' r) e2) = sent e2.
Proof.
  intros H0 Hr Hid.
  assert (He : Task.is_ended r = true).
  { rewrite (handleEndTask_run tasks now T e H0) in Hr.
    assert (Hbase : forall x,
              In x (update_where Task.id (Task.id T) ended (workshop_tasks (db e))) ->
              Task.id x = Task.id T -> Task.is_ended x = true).
    { intros x Hx Hx'. now apply (rows_ended_after_end _ _ x Hx Hx'). }
    destruct (find (TasksTab.is_next T) tasks) as [N|]; cbn [db workshop_tasks] in Hr.
    - destruct (answer 1 e); [|now apply Hbase].
      apply update_where_In in Hr as (r0 & Hr0 & ->).
      destruct (String.eqb (Task.id r0) (Task.id N)).
      + rewrite activated_keeps_ended. now apply Hbase.
      + now apply Hbase.
    - now apply Hbase. }
  unfold TaskRow.toggleButtonShown, TaskRow.endButtonShown, TaskRow.editDisabled,
    TaskRow.deleteDisabled, TaskRow.statusLabel.
  rewrite He. repeat (split; [reflexivity|]).
  intros now' e2. unfold exec, TasksTab.toggleTaskActive. rewrite He.
  split; reflexivity.
Qed.

Lemma ended_task_is_terminal_witness :
  let T := sample_task "t1" 1 true in
  answer 0 (sample_env []) = Accepted /\
  In (ended T)
     (workshop_tasks (db (exec (TasksTab.handleEndTask three_tasks true "12:00" T)
                            (sample_env [])))) /\
  TaskRow.toggleButtonShown (ended T) = false.
Proof.
  intros T.
  assert (Hin : In (ended T)
     (workshop_tasks (db (exec (TasksTab.handleEndTask three_tasks true "12:00" T)
                            (sample_env []))))) by (left; reflexivity).
  split; [reflexivity|]. split; [exact Hin|].
  exact (proj1 (proj2 (ended_task_is_terminal_in_tab three_tasks "12:00" T
                         (sample_env []) (ended T) eq_refl Hin eq_refl))).
Defined.

(** ** The workshop: further properties *)

Lemma update_where_twice {R} (col : R -> string) v f (tbl : list R) :
  (forall x, col (f x) = col x) -> (forall x, f (f x) = f x) ->
  update_where col v f (update_where col v f tbl) = update_where col v f tbl.
Proof.
  intros Hc Hf. unfold update_where. rewrite map_map. apply map_ext. intros r.
  destruct (String.eqb (col r) v) eqn:E.
  - now rewrite Hc, E, Hf.
  - now rewrite E.
Qed.

Lemma filter_update_where {R} (col : R -> string) v f (tbl : list R) :
  (forall x, col (f x) = col x) ->
  filter (fun r => String.eqb (col r) v) (update_where col v f tbl) =
  map f (filter (fun r => String.eqb (col r) v) tbl).
Proof.
  intros Hc. induction tbl as [|r tbl IH]; [reflexivity|].
  simpl. destruct (String.eqb (col r) v) eqn:E.
  - rewrite Hc, E. simpl. now f_equal.
  - now rewrite E.
Qed.

Lemma handleStartWorkshop_run w now st e :
  OverviewTab.handleStartWorkshop w now st e =
    (match answer 0 e with Accepted => "live"%string | Rejected => st end,
     {| db := match answer 0 e with
              | Accepted => apply_request (start_request w now) (db e)
              | Rejected => db e
              end;
        script := tl (script e);
        sent := sent e ++ [start_request w now];
        toasts := toasts e ++ [match answer 0 e with
                               | Accepted => WorkshopStarted
                               | Rejected => ErrorStartingWorkshop
                               end] |}).
Proof.
  unfold OverviewTab.handleStartWorkshop.
  rewrite bind_run, supabase_step. cbn [fst snd].
  now destruct (answer 0 e).
Qed.

Lemma handleAdjustPoints_run E delta dialogOpen e :
  LeaderboardTab.handleAdjustPoints (Some E) delta dialogOpen e =
    (match answer 0 e with Accepted => false | Rejected => dialogOpen end,
     {| db := match answer 0 e with
              | Accepted => apply_request (adjust_request E delta) (db e)
              | Rejected => db e
              end;
        script := tl (script e);
        sent := sent e ++ [adjust_request E delta];
        toasts := toasts e ++ [match answer 0 e with
                               | Accepted => PointsAdjusted delta
                               | Rejected => ErrorAdjustingPoints
                               end] |}).
Proof.
  unfold LeaderboardTab.handleAdjustPoints.
  rewrite bind_run, supabase_step. cbn [fst snd].
  now destruct (answer 0 e).
Qed.

(** X9.  [handleEndWorkshop] can be repeated: against an accepting
    backend a second run leaves the stored state exactly as the first run
    left it. *)
Theorem handleEndWorkshop_idempotent w st st' e :
  reliable e ->
  let e1 := exec (OverviewTab.handleEndWorkshop w st) e in
  let e2 := exec (OverviewTab.handleEndWorkshop w st') e1 in
  db e2 = db e1 /\
  result (OverviewTab.handleEndWorkshop w st') e1 = "completed"%string.
Proof.
  intros H e1 e2.
  assert (E1 : OverviewTab.handleEndWorkshop w st e =
               ("completed"%string,
                {| db := {| workshops :=
                              update_where Workshop.id w completed (workshops (db e));
                            workshop_tasks :=
                              update_where Task.workshop_id w ended
                                (workshop_tasks (db e));
                            workshop_leaderboard := workshop_leaderboard (db e) |};
                   script := tl (tl (script e));
                   sent := sent e ++ [end_all_tasks_request w; complete_request w];
                   toasts := toasts e ++ [WorkshopCompleted] |})).
  { rewrite handleEndWorkshop_run, (H 0%nat), (H 1%nat). reflexivity. }
  assert (R1 : reliable e1).
  { subst e1. unfold exec. rewrite E1. cbn [snd].
    eapply reliable_shift with (e := {| db := db e; script := tl (script e);
                                        sent := sent e; toasts := toasts e |});
      [eapply reliable_shift; [exact H | reflexivity] | reflexivity]. }
  subst e2. unfold exec, result.
  rewrite (handleEndWorkshop_run w st' e1), (R1 0%nat), (R1 1%nat).
  cbn [fst snd db]. split; [|reflexivity].
  subst e1. unfold exec. rewrite E1. cbn [snd db workshops workshop_tasks
                                           workshop_leaderboard].
  rewrite !update_where_twice; try reflexivity.
Qed.

Lemma handleEndWorkshop_idempotent_witness :
  let e1 := exec (OverviewTab.handleEndWorkshop "w1" "live") (sample_env []) in
  let e2 := exec (OverviewTab.handleEndWorkshop "w1" "completed") e1 in
  reliable (sample_env []) /\ db e2 = db e1.
Proof.
  intros e1 e2.
  assert (H : reliable (sample_env [])) by apply reliable_nil.
  split; [exact H|].
  exact (proj1 (handleEndWorkshop_idempotent "w1" "live" "completed"
                  (sample_env []) H)).
Defined.

(** X10.  The statistics of the overview: the number of active tasks that
    [fetchStats] shows for a workshop never exceeds its number of tasks,
    and once the bulk write of [handleEndWorkshop] is accepted it is zero
    while the number of tasks is as before. *)
Theorem fetchStats_active_tasks w st participants groups submissions e :
  let before := Stats.fetchStats participants groups
                  (Stats.tasks_answer w (db e)) submissions in
  let e' := exec (OverviewTab.handleEndWorkshop w st) e in
  let after := Stats.fetchStats participants groups
                 (Stats.tasks_answer w (db e')) submissions in
  0 <= Stats.activeTasks before <= Stats.totalTasks before /\
  (answer 0 e = Accepted ->
   Stats.activeTasks after = 0 /\
   Stats.totalTasks after = Stats.totalTasks before).
Proof.
  intros before e' after. subst before after e'. unfold exec.
  rewrite handleEndWorkshop_run. cbn [snd db workshop_tasks].
  unfold Stats.fetchStats, Stats.tasks_answer. cbn.
  split.
  - pose proof (filter_length_le Task.is_active
                  (filter (fun r => String.eqb (Task.workshop_id r) w)
                     (workshop_tasks (db e)))). lia.
  - intros ->. rewrite filter_update_where by reflexivity.
    rewrite length_map. split; [|reflexivity].
    set (l := filter _ (workshop_tasks (db e))). clearbody l.
    induction l as [|r l IH]; [reflexivity|]. exact IH.
Qed.

Lemma fetchStats_active_tasks_witness :
  let e' := exec (OverviewTab.handleEndWorkshop "w1" "live") (sample_env []) in
  answer 0 (sample_env []) = Accepted /\
  Stats.activeTasks (Stats.fetchStats None None
                       (Stats.tasks_answer "w1" (db (sample_env []))) None) = 1 /\
  Stats.activeTasks (Stats.fetchStats None None
                       (Stats.tasks_answer "w1" (db e')) None) = 0.
Proof.
  intros e'. split; [reflexivity|]. split; [reflexivity|].
  exact (proj1 (proj2 (fetchStats_active_tasks "w1" "live" None None None
                         (sample_env [])) eq_refl)).
Defined.

(** X11.  Ending a workshop does not freeze the leaderboard in the
    backend: [handleEndWorkshop] never writes to it, whatever the answers,
    and an adjustment of points made afterwards is stored as on a live
    workshop. *)
Theorem handleEndWorkshop_leaves_leaderboard_open w st E delta dialogOpen e :
  let e1 := exec (OverviewTab.handleEndWorkshop w st) e in
  let e2 := exec (LeaderboardTab.handleAdjustPoints (Some E) delta dialogOpen) e1 in
  workshop_leaderboard (db e1) = workshop_leaderboard (db e) /\
  (answer 2 e = Accepted ->
   workshop_leaderboard (db e2) =
     update_where Entry.id (Entry.id E)
       (with_score (Entry.total_score E + delta)) (workshop_leaderboard (db e))).
Proof.
  intros e1 e2.
  assert (E1 : workshop_leaderboard (db e1) = workshop_leaderboard (db e)).
  { subst e1. unfold exec. now rewrite handleEndWorkshop_run. }
  split; [exact E1|].
  intros H2.
  assert (A : answer 0 e1 = Accepted).
  { rewrite (answer_shift 0 {| db := db e; script := tl (script e);
                               sent := sent e; toasts := toasts e |}).
    - now rewrite (answer_shift 1 e).
    - subst e1. unfold exec. now rewrite handleEndWorkshop_run. }
  subst e2. unfold exec. rewrite handleAdjustPoints_run, A. cbn [snd db].
  cbn [adjust_request apply_request workshop_leaderboard]. now rewrite E1.
Qed.

Lemma handleEndWorkshop_leaves_leaderboard_open_witness :
  let e1 := exec (OverviewTab.handleEndWorkshop "w1" "live") (sample_env []) in
  let e2 := exec (LeaderboardTab.handleAdjustPoints
                    (Some (sample_entry "A" 30)) 5 true) e1 in
  answer 2 (sample_env []) = Accepted /\
  workshop_leaderboard (db e2) =
    [sample_entry "A" 35; sample_entry "B" 50; sample_entry "C" 50;
     sample_entry "D" 10].
Proof.
  intros e1 e2. split; [reflexivity|].
  exact (proj2 (handleEndWorkshop_leaves_leaderboard_open "w1" "live"
                  (sample_entry "A" 30) 5 true (sample_env [])) eq_refl).
Defined.

(** X12.  [handleStartWorkshop]: when the write is accepted the rows of
    the workshop get status 'live' and [updated_at = now], no other
    workshop and no task is touched -- starting activates no task -- and
    the component shows 'live'; when it is rejected the backend and the
    component's status are unchanged and the error notice is shown. *)
Theorem handleStartWorkshop_outcomes w now st e :
  let e' := exec (OverviewTab.handleStartWorkshop w now st) e in
  let s' := result (OverviewTab.handleStartWorkshop w now st) e in
  workshop_tasks (db e') = workshop_tasks (db e) /\
  (answer 0 e = Accepted ->
   workshops (db e') = update_where Workshop.id w (live now) (workshops (db e)) /\
   status_is w "live" (workshops (db e')) /\
   (forall r, In r (workshops (db e')) -> Workshop.id r = w ->
              Workshop.updated_at r = Some now) /\
   (forall r, Workshop.id r <> w ->
              (In r (workshops (db e')) <-> In r (workshops (db e)))) /\
   s' = "live"%string /\ toasts e' = toasts e ++ [WorkshopStarted]) /\
  (answer 0 e = Rejected ->
   db e' = db e /\ s' = st /\ toasts e' = toasts e ++ [ErrorStartingWorkshop]).
Proof.
  intros e' s'. subst e' s'. unfold exec, result.
  rewrite handleStartWorkshop_run. cbn [fst snd db toasts].
  split; [now destruct (answer 0 e)|]. split.
  - intros ->. cbn [apply_request start_request workshops].
    split; [reflexivity|].
    split; [now apply status_after_update|].
    split.
    { intros r Hr Hid. apply update_where_In in Hr as (r0 & _ & ->).
      destruct (String.eqb (Workshop.id r0) w) eqn:E; [reflexivity|].
      apply String.eqb_neq in E. contradiction. }
    split; [|split; reflexivity].
    intros r Hne. split.
    + intros Hr. apply update_where_adds_nothing in Hr; auto.
    + intros Hr. now apply update_where_keeps.
  - intros ->. repeat split.
Qed.

Lemma handleStartWorkshop_outcomes_witness :
  let e := {| db := {| workshops := [sample_workshop "draft"];
                       workshop_tasks := three_tasks;
                       workshop_leaderboard := [] |};
              script := []; sent := []; toasts := [] |} in
  let e' := exec (OverviewTab.handleStartWorkshop "w1" "09:00" "draft") e in
  answer 0 e = Accepted /\
  workshops (db e') = [live "09:00" (sample_workshop "draft")] /\
  workshop_tasks (db e') = three_tasks.
Proof.
  intros e e'. split; [reflexivity|].
  destruct (handleStartWorkshop_outcomes "w1" "09:00" "draft" e)
    as (Ht & Hacc & _).
  split; [exact (proj1 (Hacc eq_refl)) | exact Ht].
Defined.

(** X13.  The life of a workshop: from 'draft', against an accepting
    backend, the start operation gives 'live' and the end operation then
    gives 'completed' with every task of the workshop ended; three writes
    are sent in all, in the order start, tasks, status. *)
Theorem workshop_draft_live_completed w now e :
  reliable e ->
  let s1 := result (OverviewTab.start w now "draft") e in
  let e1 := exec (OverviewTab.start w now "draft") e in
  let s2 := result (OverviewTab.finish w s1) e1 in
  let e2 := exec (OverviewTab.finish w s1) e1 in
  s1 = "live"%string /\ status_is w "live" (workshops (db e1)) /\
  workshop_tasks (db e1) = workshop_tasks (db e) /\
  s2 = "completed"%string /\ status_is w "completed" (workshops (db e2)) /\
  tasks_ended w (workshop_tasks (db e2)) /\
  sent e2 = sent e ++ [start_request w now; end_all_tasks_request w;
                       complete_request w].
Proof.
  intros H s1 e1 s2 e2.
  assert (E1 : OverviewTab.start w now "draft" e =
               ("live"%string,
                {| db := apply_request (start_request w now) (db e);
                   script := tl (script e);
                   sent := sent e ++ [start_request w now];
                   toasts := toasts e ++ [WorkshopStarted] |})).
  { unfold OverviewTab.start.
    change (OverviewTab.startButtonShown "draft") with true. cbv iota.
    now rewrite handleStartWorkshop_run, (H 0%nat). }
  assert (R1 : reliable e1).
  { subst e1. unfold exec. rewrite E1.
    eapply reliable_shift; [exact H | reflexivity]. }
  assert (S1 : s1 = "live"%string) by (subst s1; unfold result; now rewrite E1).
  assert (Ee1 : e1 = {| db := apply_request (start_request w now) (db e);
                        script := tl (script e);
                        sent := sent e ++ [start_request w now];
                        toasts := toasts e ++ [WorkshopStarted] |})
    by (subst e1; unfold exec; now rewrite E1).
  assert (E2 : OverviewTab.finish w "live" e1 =
               ("completed"%string,
                {| db := {| workshops :=
                              update_where Workshop.id w completed (workshops (db e1));
                            workshop_tasks :=
                              update_where Task.workshop_id w ended
                                (workshop_tasks (db e1));
                            workshop_leaderboard := workshop_leaderboard (db e1) |};
                   script := tl (tl (script e1));
                   sent := sent e1 ++ [end_all_tasks_request w; complete_request w];
                   toasts := toasts e1 ++ [WorkshopCompleted] |})).
  { unfold OverviewTab.finish.
    change (OverviewTab.endButtonShown "live") with true. cbv iota.
    now rewrite handleEndWorkshop_run, (R1 0%nat), (R1 1%nat). }
  subst s2 e2. rewrite S1. unfold exec, result. rewrite E2.
  cbn [fst snd db workshops workshop_tasks sent].
  split; [reflexivity|].
  rewrite Ee1. cbn [db sent apply_request start_request workshops workshop_tasks].
  repeat apply conj; try reflexivity.
  - now apply status_after_update.
  - now apply status_after_update.
  - apply tasks_ended_after_bulk.
  - now rewrite <- app_assoc.
Qed.

Lemma workshop_draft_live_completed_witness :
  let e := {| db := {| workshops := [sample_workshop "draft"];
                       workshop_tasks := three_tasks;
                       workshop_leaderboard := [] |};
              script := []; sent := []; toasts := [] |} in
  let e1 := exec (OverviewTab.start "w1" "09:00" "draft") e in
  let e2 := exec (OverviewTab.finish "w1" "live") e1 in
  reliable e /\ tasks_ended "w1" (workshop_tasks (db e2)) /\
  workshops (db e2) = [completed (live "09:00" (sample_workshop "draft"))].
Proof.
  intros e e1 e2.
  assert (H : reliable e) by apply reliable_nil.
  split; [exact H|]. split; [|reflexivity].
  exact (proj1 (proj2 (proj2 (proj2 (proj2 (proj2
    (workshop_draft_live_completed "w1" "09:00" e H))))))).
Defined.

(** X14.  The status a handler puts into the component is the status a
    later [fetchWorkshopStatus] reads back: for a workshop stored as one
    row, after an accepted [handleStartWorkshop] the read gives 'live' and
    after an accepted status write of [handleEndWorkshop] it gives
    'completed'; a stored status of [null] reads as 'draft', for which
    Start is offered; a failed read keeps what the component had. *)
Theorem fetchWorkshopStatus_reads_back w now st r e :
  filter (fun x => String.eqb (Workshop.id x) w) (workshops (db e)) = [r] ->
  (answer 0 e = Accepted ->
   Stats.fetchWorkshopStatus Accepted w st
     (db (exec (OverviewTab.handleStartWorkshop w now st) e)) =
   result (OverviewTab.handleStartWorkshop w now st) e) /\
  (answer 1 e = Accepted ->
   Stats.fetchWorkshopStatus Accepted w st
     (db (exec (OverviewTab.handleEndWorkshop w st) e)) =
   result (OverviewTab.handleEndWorkshop w st) e) /\
  (Workshop.status r = None ->
   Stats.fetchWorkshopStatus Accepted w st (db e) = "draft"%string /\
   OverviewTab.startButtonShown "draft" = true) /\
  Stats.fetchWorkshopStatus Rejected w st (db e) = st.
Proof.
  intros Hone. split; [|split; [|split; [|reflexivity]]].
  - intros H0. unfold exec, result. rewrite handleStartWorkshop_run, H0.
    cbn [fst snd db apply_request start_request workshops].
    unfold Stats.fetchWorkshopStatus. cbn [workshops].
    rewrite filter_update_where by reflexivity. rewrite Hone. reflexivity.
  - intros H1. unfold exec, result. rewrite handleEndWorkshop_run, H1.
    cbn [fst snd db workshops]. unfold Stats.fetchWorkshopStatus. cbn [workshops].
    rewrite filter_update_where by reflexivity. rewrite Hone. reflexivity.
  - intros Hs. unfold Stats.fetchWorkshopStatus. rewrite Hone. cbn.
    rewrite Hs. split; reflexivity.
Qed.

Lemma fetchWorkshopStatus_reads_back_witness :
  let e := sample_env [] in
  filter (fun x => String.eqb (Workshop.id x) "w1") (workshops (db e)) =
    [sample_workshop "live"] /\
  answer 1 e = Accepted /\
  Stats.fetchWorkshopStatus Accepted "w1" "live"
    (db (exec (OverviewTab.handleEndWorkshop "w1" "live") e)) = "completed"%string.
Proof.
  intros e. split; [reflexivity|]. split; [reflexivity|].
  exact (proj1 (proj2 (fetchWorkshopStatus_reads_back "w1" "09:00" "live"
                         (sample_workshop "live") e eq_refl)) eq_refl).
Defined.

(** ** The leaderboard: further properties *)

Lemma sort_of_sorted l :
  StronglySorted score_desc l ->
  LeaderboardTab.sort LeaderboardTab.by_score_desc l = l.
Proof.
  induction 1 as [|x l Hs IH Hx]; [reflexivity|].
  cbn [LeaderboardTab.sort fold_right].
  fold (LeaderboardTab.sort LeaderboardTab.by_score_desc l). rewrite IH.
  destruct l as [|y l']; [reflexivity|].
  cbn [LeaderboardTab.insert].
  inversion Hx as [|? ? Hy _]; subst.
  unfold score_desc in Hy. unfold LeaderboardTab.by_score_desc.
  destruct (Z.leb_spec (Entry.total_score y - Entry.total_score x) 0);
    [reflexivity | lia].
Qed.

(** X15.  Sorting changes nothing in a list that is already in
    descending score order -- the order [fetchLeaderboard] asks the backend
    for -- so [refreshLeaderboard] then writes rank [i + 1] for the entry
    shown at position [i]; and sorting twice is sorting once. *)
Theorem refreshLeaderboard_keeps_sorted_order leaderboard e :
  LeaderboardTab.sort LeaderboardTab.by_score_desc
    (LeaderboardTab.sort LeaderboardTab.by_score_desc leaderboard) =
  LeaderboardTab.sort LeaderboardTab.by_score_desc leaderboard /\
  (StronglySorted score_desc leaderboard ->
   LeaderboardTab.sort LeaderboardTab.by_score_desc leaderboard = leaderboard /\
   sent (exec (LeaderboardTab.refreshLeaderboard leaderboard) e) =
     sent e ++ rank_requests 0 leaderboard).
Proof.
  split; [apply sort_of_sorted, sort_sorted|].
  intros H. split; [now apply sort_of_sorted|].
  rewrite refreshLeaderboard_exec. cbn [sent].
  now rewrite write_ranks_sent, sort_of_sorted.
Qed.

Lemma refreshLeaderboard_keeps_sorted_order_witness :
  let l := [sample_entry "B" 50; sample_entry "C" 50; sample_entry "A" 30] in
  StronglySorted score_desc l /\
  LeaderboardTab.sort LeaderboardTab.by_score_desc l = l.
Proof.
  intros l.
  assert (H : StronglySorted score_desc l).
  { repeat constructor; unfold score_desc; simpl; lia. }
  split; [exact H|].
  exact (proj1 (proj2 (refreshLeaderboard_keeps_sorted_order l (sample_env [])) H)).
Defined.

Lemma sorted_nth {A} (R : A -> A -> Prop) l i j a b :
  StronglySorted R l -> nth_error l i = Some a -> nth_error l j = Some b ->
  (i < j)%nat -> R a b.
Proof.
  intros Hs. revert i j. induction Hs as [|x l Hs IH Hx]; intros i j Hi Hj Hlt.
  - now destruct i.
  - destruct j as [|j]; [lia|]. destruct i as [|i]; simpl in *.
    + injection Hi as <-. rewrite Forall_forall in Hx. apply Hx.
      eapply nth_error_In; eauto.
    + apply (IH i j); auto. lia.
Qed.

(** X16.  After [refreshLeaderboard] against an accepting backend, with
    unique ids, the stored ranks of the listed entries are the numbers from
    1 to the number of entries, no two entries share a rank even when their
    scores are equal, and an entry with a higher score has a smaller
    rank. *)
Theorem refreshLeaderboard_ranks_follow_scores leaderboard e x y r1 r2 :
  reliable e -> NoDup (map Entry.id leaderboard) ->
  In x leaderboard -> In y leaderboard ->
  let e' := exec (LeaderboardTab.refreshLeaderboard leaderboard) e in
  In r1 (workshop_leaderboard (db e')) -> Entry.id r1 = Entry.id x ->
  In r2 (workshop_leaderboard (db e')) -> Entry.id r2 = Entry.id y ->
  exists k1 k2,
    Entry.rank r1 = Some k1 /\ Entry.rank r2 = Some k2 /\
    1 <= k1 <= Z.of_nat (length leaderboard) /\
    (Entry.id x <> Entry.id y -> k1 <> k2) /\
    (Entry.total_score y < Entry.total_score x -> k1 < k2).
Proof.
  intros H Hnd Hx Hy e' Hr1 Hi1 Hr2 Hi2. subst e'.
  rewrite refreshLeaderboard_exec in Hr1, Hr2. cbn [db] in Hr1, Hr2.
  rewrite write_ranks_table in Hr1, Hr2 by exact H.
  set (s := LeaderboardTab.sort LeaderboardTab.by_score_desc leaderboard) in *.
  assert (Hp : Permutation s leaderboard) by apply sort_perm.
  assert (Hnd' : NoDup (map Entry.id s)).
  { eapply Permutation_NoDup; [|exact Hnd]. apply Permutation_map. now symmetry. }
  assert (Hxs : In x s) by (eapply Permutation_in; [symmetry|]; eauto).
  assert (Hys : In y s) by (eapply Permutation_in; [symmetry|]; eauto).
  apply In_nth_error in Hxs as [i Hi]. apply In_nth_error in Hys as [j Hj].
  apply in_map_iff in Hr1 as (a & <- & _). apply in_map_iff in Hr2 as (b & <- & _).
  rewrite ranked_id in Hi1, Hi2.
  exists (0 + Z.of_nat i + 1), (0 + Z.of_nat j + 1).
  split; [now apply (ranked_at 0 s i x)|].
  split; [now apply (ranked_at 0 s j y)|].
  assert (Hlen : (i < length leaderboard)%nat).
  { rewrite <- (Permutation_length Hp). apply nth_error_Some. congruence. }
  split; [lia|]. split.
  - intros Hne Heq. assert (i = j) by lia. subst j. congruence.
  - intros Hlt.
    destruct (Nat.lt_trichotomy i j) as [Hij|[Hij|Hij]]; [lia| |].
    + subst j. assert (x = y) by congruence. subst y. lia.
    + pose proof (sorted_nth score_desc s j i y x (sort_sorted leaderboard)
                    Hj Hi Hij) as Hd.
      unfold score_desc in Hd. lia.
Qed.

Lemma refreshLeaderboard_ranks_follow_scores_witness :
  let e' := exec (LeaderboardTab.refreshLeaderboard four_entries) (sample_env []) in
  reliable (sample_env []) /\ NoDup (map Entry.id four_entries) /\
  exists k1 k2,
    Entry.rank (with_rank 1 (sample_entry "B" 50)) = Some k1 /\
    Entry.rank (with_rank 4 (sample_entry "D" 10)) = Some k2 /\ k1 < k2.
Proof.
  intros e'.
  assert (H : reliable (sample_env [])) by apply reliable_nil.
  assert (Hnd : NoDup (map Entry.id four_entries)).
  { simpl. repeat constructor; simpl; intuition discriminate. }
  split; [exact H|]. split; [exact Hnd|].
  destruct (refreshLeaderboard_ranks_follow_scores four_entries (sample_env [])
              (sample_entry "B" 50) (sample_entry "D" 10)
              (with_rank 1 (sample_entry "B" 50)) (with_rank 4 (sample_entry "D" 10))
              H Hnd)
    as (k1 & k2 & H1 & H2 & _ & _ & Hlt).
  - right; left; reflexivity.
  - right; right; right; left; reflexivity.
  - right; left; reflexivity.
  - reflexivity.
  - right; right; right; left; reflexivity.
  - reflexivity.
  - exists k1, k2. split; [exact H1|]. split; [exact H2|]. apply Hlt. simpl. lia.
Defined.

Lemma write_ranks_table_under i l e :
  workshop_leaderboard (db (exec (LeaderboardTab.write_ranks i l) e)) =
  map (ranked_under (script e) i l) (workshop_leaderboard (db e)).
Proof.
  revert i e. induction l as [|x l IH]; intros i e.
  - simpl. now rewrite map_id.
  - rewrite write_ranks_step, IH, supabase_script, supabase_step. cbn [snd db].
    cbn [ranked_under]. change (nth 0 (script e) Accepted) with (answer 0 e).
    destruct (answer 0 e).
    + cbn [apply_request workshop_leaderboard]. unfold update_where.
      rewrite map_map. reflexivity.
    + reflexivity.
Qed.

Lemma ranked_under_keeps sc i l r :
  Entry.id (ranked_under sc i l r) = Entry.id r /\
  Entry.total_score (ranked_under sc i l r) = Entry.total_score r /\
  Entry.tasks_completed (ranked_under sc i l r) = Entry.tasks_completed r /\
  (~ In (Entry.id r) (map Entry.id l) -> ranked_under sc i l r = r).
Proof.
  revert sc i r. induction l as [|x l IH]; intros sc i r; [now repeat split|].
  cbn [ranked_under].
  set (r' := match nth 0 sc Accepted with
             | Accepted => if String.eqb (Entry.id r) (Entry.id x)
                           then with_rank (i + 1) r else r
             | Rejected => r
             end).
  assert (Hr' : Entry.id r' = Entry.id r /\
                Entry.total_score r' = Entry.total_score r /\
                Entry.tasks_completed r' = Entry.tasks_completed r /\
                (Entry.id r <> Entry.id x -> r' = r)).
  { subst r'. destruct (nth 0 sc Accepted); [|now repeat split].
    destruct (String.eqb (Entry.id r) (Entry.id x)) eqn:E; [|now repeat split].
    apply String.eqb_eq in E. repeat split. intros Hn. contradiction. }
  destruct Hr' as (H1 & H2 & H3 & H4).
  destruct (IH (tl sc) (i + 1) r') as (I1 & I2 & I3 & I4).
  repeat split; try congruence.
  intros Hn. simpl in Hn. rewrite I4.
  - apply H4. intros E. apply Hn. left. now symmetry.
  - rewrite H1. tauto.
Qed.

Lemma ranked_under_at sc i l k x r :
  NoDup (map Entry.id l) -> nth_error l k = Some x -> Entry.id r = Entry.id x ->
  Entry.rank (ranked_under sc i l r) =
    match nth k sc Accepted with
    | Accepted => Some (i + Z.of_nat k + 1)
    | Rejected => Entry.rank r
    end.
Proof.
  revert sc i k r. induction l as [|y l IH]; intros sc i k r Hnd Hk Hid.
  - now destruct k.
  - inversion Hnd as [|? ? Hnotin Hnd']; subst. destruct k as [|k]; simpl in Hk.
    + injection Hk as ->. cbn [ranked_under]. rewrite Hid, String.eqb_refl.
      destruct (nth 0 sc Accepted).
      * rewrite (proj2 (proj2 (proj2 (ranked_under_keeps _ _ _ _)))).
        -- simpl. f_equal. lia.
        -- simpl. now rewrite Hid.
      * rewrite (proj2 (proj2 (proj2 (ranked_under_keeps _ _ _ _)))).
        -- reflexivity.
        -- now rewrite Hid.
    + cbn [ranked_under].
      assert (Hne : String.eqb (Entry.id r) (Entry.id y) = false).
      { apply String.eqb_neq. intros E. apply Hnotin. rewrite <- E, Hid.
        apply in_map. eapply nth_error_In; eauto. }
      rewrite Hne.
      replace (match nth 0 sc Accepted with Accepted => r | Rejected => r end)
        with r by now destruct (nth 0 sc Accepted).
      rewrite (IH (tl sc) (i + 1) k r Hnd' Hk Hid).
      replace (nth k (tl sc) Accepted) with (nth (S k) sc Accepted)
        by (destruct sc; [now destruct k | reflexivity]).
      destruct (nth (S k) sc Accepted); [f_equal; lia | reflexivity].
Qed.

(** X17.  Whatever the backend answers, [refreshLeaderboard] changes
    nothing but ranks: the stored rows keep their ids, scores and completed
    task counts, in the same order, and a row whose id is not among the
    listed entries is untouched. *)
Theorem refreshLeaderboard_changes_ranks_only leaderboard e :
  let e' := exec (LeaderboardTab.refreshLeaderboard leaderboard) e in
  map Entry.id (workshop_leaderboard (db e')) =
    map Entry.id (workshop_leaderboard (db e)) /\
  map Entry.total_score (workshop_leaderboard (db e')) =
    map Entry.total_score (workshop_leaderboard (db e)) /\
  map Entry.tasks_completed (workshop_leaderboard (db e')) =
    map Entry.tasks_completed (workshop_leaderboard (db e)) /\
  (forall r, In r (workshop_leaderboard (db e)) ->
             ~ In (Entry.id r) (map Entry.id leaderboard) ->
             In r (workshop_leaderboard (db e'))).
Proof.
  intros e'. subst e'. rewrite refreshLeaderboard_exec. cbn [db].
  rewrite write_ranks_table_under.
  set (s := LeaderboardTab.sort LeaderboardTab.by_score_desc leaderboard).
  repeat split.
  - rewrite map_map. apply map_ext. intros r. apply ranked_under_keeps.
  - rewrite map_map. apply map_ext. intros r. apply ranked_under_keeps.
  - rewrite map_map. apply map_ext. intros r. apply ranked_under_keeps.
  - intros r Hr Hn. apply in_map_iff. exists r. split; [|exact Hr].
    apply ranked_under_keeps. intros Hin. apply Hn.
    apply in_map_iff in Hin as (z & Hz & Hzin). apply in_map_iff.
    exists z. split; [exact Hz|].
    eapply Permutation_in; [apply sort_perm | exact Hzin].
Qed.

(** X18.  The rank writes of [refreshLeaderboard] stand each on its own:
    with unique ids, the entry at position [k] of the sorted list gets rank
    [k + 1] when its write is accepted and keeps the rank it had when its
    write is rejected, whatever happens to the other writes. *)
Theorem refreshLeaderboard_write_by_write leaderboard e k x r :
  NoDup (map Entry.id leaderboard) ->
  nth_error (LeaderboardTab.sort LeaderboardTab.by_score_desc leaderboard) k = Some x ->
  In r (workshop_leaderboard (db e)) -> Entry.id r = Entry.id x ->
  exists r', In r' (workshop_leaderboard
                      (db (exec (LeaderboardTab.refreshLeaderboard leaderboard) e))) /\
             Entry.id r' = Entry.id x /\
             Entry.rank r' = match answer k e with
                             | Accepted => Some (Z.of_nat k + 1)
                             | Rejected => Entry.rank r
                             end.
Proof.
  intros Hnd Hk Hr Hid.
  rewrite refreshLeaderboard_exec. cbn [db]. rewrite write_ranks_table_under.
  set (s := LeaderboardTab.sort LeaderboardTab.by_score_desc leaderboard) in *.
  exists (ranked_under (script e) 0 s r).
  split; [now apply in_map|].
  split; [rewrite (proj1 (ranked_under_keeps _ _ _ _)); exact Hid|].
  rewrite (ranked_under_at (script e) 0 s k x r); auto.
  eapply Permutation_NoDup; [|exact Hnd].
  apply Permutation_map. symmetry. apply sort_perm.
Qed.

Lemma refreshLeaderboard_write_by_write_witness :
  let e := sample_env [Accepted; Rejected] in
  NoDup (map Entry.id four_entries) /\
  exists r', In r' (workshop_leaderboard
                      (db (exec (LeaderboardTab.refreshLeaderboard four_entries) e))) /\
             Entry.id r' = "C"%string /\ Entry.rank r' = None.
Proof.
  intros e.
  assert (Hnd : NoDup (map Entry.id four_entries)).
  { simpl. repeat constructor; simpl; intuition discriminate. }
  split; [exact Hnd|].
  refine (refreshLeaderboard_write_by_write four_entries e 1%nat
            (sample_entry "C" 50) (sample_entry "C" 50) Hnd eq_refl _ eq_refl).
  right; right; left; reflexivity.
Defined.

(** X19.  [handleAdjustPoints] without an entry does nothing; and when
    its write is rejected the backend is unchanged, the dialog stays as it
    was and the destructive notice "Error adjusting points" is shown. *)
Theorem handleAdjustPoints_none_or_rejected E delta dialogOpen e :
  LeaderboardTab.handleAdjustPoints None delta dialogOpen e = (dialogOpen, e) /\
  (answer 0 e = Rejected ->
   let e' := exec (LeaderboardTab.handleAdjustPoints (Some E) delta dialogOpen) e in
   db e' = db e /\
   result (LeaderboardTab.handleAdjustPoints (Some E) delta dialogOpen) e = dialogOpen /\
   toasts e' = toasts e ++ [ErrorAdjustingPoints] /\
   destructive ErrorAdjustingPoints = true).
Proof.
  split; [reflexivity|].
  intros H e'. subst e'. unfold exec, result.
  rewrite handleAdjustPoints_run, H. repeat split.
Qed.

Lemma handleAdjustPoints_rejected_witness :
  let e := sample_env [Rejected] in
  answer 0 e = Rejected /\
  db (exec (LeaderboardTab.handleAdjustPoints (Some (sample_entry "A" 30)) 5 true) e)
  = db e.
Proof.
  intros e. split; [reflexivity|].
  exact (proj1 (proj2 (handleAdjustPoints_none_or_rejected (sample_entry "A" 30)
                         5 true e) eq_refl)).
Defined.

(** X20.  An adjustment is computed from the score the component holds,
    not from the stored one.  Two accepted adjustments made from the same
    in-memory entry do not add up: the second overwrites the first and the
    stored score is [E.total_score + d2].  Made from the entry as re-read
    after the first, they add up to [E.total_score + d1 + d2]. *)
Theorem handleAdjustPoints_twice E d1 d2 o1 o2 e :
  answer 0 e = Accepted -> answer 1 e = Accepted ->
  let e1 := exec (LeaderboardTab.handleAdjustPoints (Some E) d1 o1) e in
  let stale := exec (LeaderboardTab.handleAdjustPoints (Some E) d2 o2) e1 in
  let fresh := exec (LeaderboardTab.handleAdjustPoints
                       (Some (with_score (Entry.total_score E + d1) E)) d2 o2) e1 in
  workshop_leaderboard (db stale) =
    update_where Entry.id (Entry.id E) (with_score (Entry.total_score E + d2))
      (workshop_leaderboard (db e)) /\
  workshop_leaderboard (db fresh) =
    update_where Entry.id (Entry.id E) (with_score (Entry.total_score E + d1 + d2))
      (workshop_leaderboard (db e)).
Proof.
  intros H0 H1 e1 stale fresh.
  assert (E1 : workshop_leaderboard (db e1) =
               update_where Entry.id (Entry.id E)
                 (with_score (Entry.total_score E + d1)) (workshop_leaderboard (db e))).
  { subst e1. unfold exec. now rewrite handleAdjustPoints_run, H0. }
  assert (A1 : answer 0 e1 = Accepted).
  { rewrite (answer_shift 0 e); [exact H1|].
    subst e1. unfold exec. now rewrite handleAdjustPoints_run. }
  assert (Htwice : forall s1 s2 tbl,
            update_where Entry.id (Entry.id E) (with_score s2)
              (update_where Entry.id (Entry.id E) (with_score s1) tbl) =
            update_where Entry.id (Entry.id E) (with_score s2) tbl).
  { intros s1 s2 tbl. unfold update_where. rewrite map_map. apply map_ext.
    intros r. destruct (String.eqb (Entry.id r) (Entry.id E)) eqn:Er.
    - cbn [with_score patch_entry Entry.id]. now rewrite Er.
    - now rewrite Er. }
  split.
  - subst stale. unfold exec. rewrite handleAdjustPoints_run, A1. cbn [snd db].
    cbn [adjust_request apply_request workshop_leaderboard].
    rewrite E1. apply Htwice.
  - subst fresh. unfold exec. rewrite handleAdjustPoints_run, A1. cbn [snd db].
    cbn [adjust_request apply_request workshop_leaderboard].
    rewrite E1. apply Htwice.
Qed.

Lemma handleAdjustPoints_twice_witness :
  let E := sample_entry "A" 30 in
  let e1 := exec (LeaderboardTab.handleAdjustPoints (Some E) 10 true) (sample_env []) in
  let stale := exec (LeaderboardTab.handleAdjustPoints (Some E) 5 true) e1 in
  answer 0 (sample_env []) = Accepted /\ answer 1 (sample_env []) = Accepted /\
  workshop_leaderboard (db stale) =
    [sample_entry "A" 35; sample_entry "B" 50; sample_entry "C" 50;
     sample_entry "D" 10].
Proof.
  intros E e1 stale. split; [reflexivity|]. split; [reflexivity|].
  exact (proj1 (handleAdjustPoints_twice E 10 5 true true (sample_env [])
                  eq_refl eq_refl)).
Defined.

Lemma refreshLeaderboard_changes_ranks_only_witness :
  let extra := sample_entry "Z" 99 in
  let e := {| db := {| workshops := []; workshop_tasks := [];
                       workshop_leaderboard := extra :: four_entries |};
              script := []; sent := []; toasts := [] |} in
  ~ In (Entry.id extra) (map Entry.id four_entries) /\
  In extra (workshop_leaderboard
              (db (exec (LeaderboardTab.refreshLeaderboard four_entries) e))).
Proof.
  intros extra e.
  assert (Hn : ~ In (Entry.id extra) (map Entry.id four_entries)).
  { simpl. intuition discriminate. }
  split; [exact Hn|].
  refine (proj2 (proj2 (proj2 (refreshLeaderboard_changes_ranks_only four_entries e)))
            extra _ Hn).
  left; reflexivity.
Defined.

(** ** Group codes: further properties *)

Section MoreCodes.

Import GroupsTab.

Lemma substring0_digits36 m ds :
  substring 0 m (digits36 ds) = digits36 (firstn m ds).
Proof.
  revert m. induction ds as [|d ds IH]; intros [|m]; simpl; try reflexivity.
  now rewrite IH.
Qed.

Lemma firstn_min {A} m (l : list A) : firstn (Nat.min m (length l)) l = firstn m l.
Proof.
  revert m. induction l as [|a l IH]; intros [|m]; simpl; try reflexivity.
  now rewrite IH.
Qed.

(** The code is the upper-cased text of the first six fraction digits. *)
Lemma generateCode_first_six fraction :
  generateCode fraction = toUpperCase (digits36 (firstn 6 fraction)).
Proof.
  destruct fraction as [|d ds]; [reflexivity|].
  unfold generateCode, js_substring, toString36.
  change (String.append "0." (digits36 (d :: ds)))
    with (String "0" (String "." (digits36 (d :: ds)))).
  cbn [String.length]. rewrite digits36_length.
  set (n := length (d :: ds)).
  replace (Nat.min 2 (S (S n))) with 2%nat by lia.
  replace (Nat.min 8 (S (S n))) with (S (S (Nat.min 6 n))) by lia.
  replace (Nat.min 2 (S (S (Nat.min 6 n)))) with 2%nat by lia.
  replace (Nat.max 2 (S (S (Nat.min 6 n))) - 2)%nat with (Nat.min 6 n) by lia.
  change (substring 2 (Nat.min 6 n) (String "0" (String "." (digits36 (d :: ds)))))
    with (substring 0 (Nat.min 6 n) (digits36 (d :: ds))).
  rewrite substring0_digits36. subst n. now rewrite firstn_min.
Qed.

(** X21.  For every random value whose digits are base-36 digits,
    [generateCode] returns the upper-cased first six fraction digits: at
    most six characters, exactly six when [toString(36)] printed at least
    six digits and fewer otherwise, all of them in [[A-Z0-9]]. *)
Theorem generateCode_length_and_alphabet fraction :
  Forall (fun d => (d < 36)%N) fraction ->
  generateCode fraction = toUpperCase (digits36 (firstn 6 fraction)) /\
  String.length (generateCode fraction) = Nat.min 6 (length fraction) /\
  (String.length (generateCode fraction) = 6%nat <-> (6 <= length fraction)%nat) /\
  all_chars alnum_upper (generateCode fraction) = true.
Proof.
  intros H. destruct (generateCode_at_most_six fraction H) as [Hl Ha].
  split; [apply generateCode_first_six|]. split; [exact Hl|].
  split; [rewrite Hl; lia | exact Ha].
Qed.

Lemma generateCode_length_and_alphabet_witness :
  Forall (fun d => (d < 36)%N) (fraction_of 123456789 53) /\
  generateCode (fraction_of 123456789 53) = "00000T"%string /\
  String.length (generateCode (fraction_of 123456789 53)) = 6%nat.
Proof.
  assert (H : Forall (fun d => (d < 36)%N) (fraction_of 123456789 53)).
  { vm_compute. repeat constructor. }
  split; [exact H|]. split; [reflexivity|].
  destruct (generateCode_length_and_alphabet _ H) as (_ & Hl & _).
  rewrite Hl. reflexivity.
Defined.

(** X22.  The code depends on the first six fraction digits only: two
    random values that agree on them give the same code, so equal codes
    can be generated for different random values; nothing in
    [generateCode] looks at the existing codes. *)
Theorem generateCode_collides_on_six_digits f1 f2 :
  firstn 6 f1 = firstn 6 f2 -> generateCode f1 = generateCode f2.
Proof. intros H. now rewrite !generateCode_first_six, H. Qed.

Lemma generateCode_collides_witness :
  let f1 := [1; 2; 3; 4; 5; 6; 7]%N in
  let f2 := [1; 2; 3; 4; 5; 6; 30; 2]%N in
  firstn 6 f1 = firstn 6 f2 /\ f1 <> f2 /\ generateCode f1 = generateCode f2.
Proof.
  intros f1 f2. split; [reflexivity|]. split; [discriminate|].
  exact (generateCode_collides_on_six_digits f1 f2 eq_refl).
Defined.

End MoreCodes.

(** ** Bulk creation of groups *)

Lemma team_name_inj i j : GroupForms.team_name i = GroupForms.team_name j -> i = j.
Proof.
  unfold GroupForms.team_name. intros H. simpl in H.
  injection H as H.
  assert (E : Some (Nat.to_uint (S i)) = Some (Nat.to_uint (S j))).
  { rewrite <- !NilEmpty.usu. now rewrite H. }
  injection E as E. apply DecimalNat.Unsigned.to_uint_inj in E. lia.
Qed.

Lemma NoDup_map_injective {A B} (f : A -> B) l :
  (forall x y, f x = f y -> x = y) -> NoDup l -> NoDup (map f l).
Proof.
  intros Hf. induction 1 as [|a l Ha Hl IH]; simpl; constructor; auto.
  intros Hin. apply in_map_iff in Hin as (b & Hb & Hbl).
  apply Hf in Hb. now subst b.
Qed.

Lemma nth_error_seq_lt a n i :
  (i < n)%nat -> nth_error (seq a n) i = Some (a + i)%nat.
Proof.
  revert a i. induction n as [|n IH]; intros a i Hi; [lia|].
  destruct i as [|i]; simpl; [f_equal; lia|].
  rewrite IH by lia. f_equal. lia.
Qed.

Lemma bulk_groups_built w n random rows :
  GroupForms.bulk_groups w n random = Some rows ->
  n <= GroupForms.max_array_length /\
  rows = map (fun i => {| GroupForms.workshop_id := w;
                          GroupForms.group_name := GroupForms.team_name i;
                          GroupForms.group_code := GroupsTab.generateCode (random i) |})
             (seq 0 (Z.to_nat n)).
Proof.
  unfold GroupForms.bulk_groups, GroupForms.Array_from.
  destruct (Z.ltb_spec GroupForms.max_array_length n); [discriminate|].
  intros [= <-]. split; [assumption | reflexivity].
Qed.

Lemma bulk_groups_nth w n random rows k :
  GroupForms.bulk_groups w n random = Some rows -> (k < Z.to_nat n)%nat ->
  nth_error rows k =
  Some {| GroupForms.workshop_id := w;
          GroupForms.group_name := GroupForms.team_name k;
          GroupForms.group_code := GroupsTab.generateCode (random k) |}.
Proof.
  intros Hb Hk. apply bulk_groups_built in Hb as [_ ->].
  now rewrite nth_error_map, nth_error_seq_lt.
Qed.

(** X23.  [handleBulkCreate] for an integer [bulkCount].  Above
    [2^32 - 1] building the array throws [RangeError]: nothing is inserted
    and no toast is shown.  Otherwise it sends one insert with [bulkCount]
    rows (none for a count of zero or less, the insert being sent all the
    same), all for the current workshop, named "Team 1", "Team 2", ... with
    no name twice, each with a code of at most six characters of
    [[A-Z0-9]]. *)
Theorem handleBulkCreate_rows w bulkCount random o :
  (GroupForms.max_array_length < bulkCount ->
   GroupForms.handleBulkCreate w bulkCount random o = GroupForms.ThrewRangeError) /\
  (bulkCount <= GroupForms.max_array_length ->
   exists rows,
     GroupForms.bulk_groups w bulkCount random = Some rows /\
     GroupForms.handleBulkCreate w bulkCount random o =
       GroupForms.Done
         {| GroupForms.inserted := rows;
            GroupForms.shown := match o with
                                | Accepted => GroupForms.GroupsCreated bulkCount
                                | Rejected => GroupForms.ErrorCreatingGroups
                                end;
            GroupForms.refetch := match o with
                                  | Accepted => true
                                  | Rejected => false
                                  end |} /\
     length rows = Z.to_nat bulkCount /\
     (bulkCount <= 0 -> rows = []) /\
     (forall g, In g rows -> GroupForms.workshop_id g = w) /\
     NoDup (map GroupForms.group_name rows) /\
     (forall i g, nth_error rows i = Some g ->
                  GroupForms.group_name g = GroupForms.team_name i) /\
     ((forall k, Forall (fun d => (d < 36)%N) (random k)) ->
      forall g, In g rows ->
        (String.length (GroupForms.group_code g) <= 6)%nat /\
        GroupsTab.all_chars GroupsTab.alnum_upper (GroupForms.group_code g) = true)).
Proof.
  split.
  - intros Hbig. unfold GroupForms.handleBulkCreate, GroupForms.bulk_groups,
      GroupForms.Array_from.
    apply Z.ltb_lt in Hbig. now rewrite Hbig.
  - intros Hok.
    assert (Hb : exists rows, GroupForms.bulk_groups w bulkCount random = Some rows).
    { unfold GroupForms.bulk_groups, GroupForms.Array_from.
      destruct (Z.ltb_spec GroupForms.max_array_length bulkCount); [lia|].
      eexists; reflexivity. }
    destruct Hb as [rows Hb]. exists rows.
    split; [exact Hb|].
    split; [unfold GroupForms.handleBulkCreate; rewrite Hb; now destruct o|].
    pose proof (bulk_groups_built _ _ _ _ Hb) as [_ Hrows].
    split; [rewrite Hrows; now rewrite length_map, length_seq|].
    split.
    { intros Hle. rewrite Hrows.
      replace (Z.to_nat bulkCount) with 0%nat by lia. reflexivity. }
    split.
    { intros g Hg. rewrite Hrows in Hg.
      apply in_map_iff in Hg as (i & <- & _). reflexivity. }
    split.
    { rewrite Hrows, map_map. cbn [GroupForms.group_name].
      apply NoDup_map_injective.
      - intros i j. apply team_name_inj.
      - apply seq_NoDup. }
    split.
    { intros i g Hi.
      assert (Hlt : (i < length rows)%nat) by (apply nth_error_Some; congruence).
      rewrite Hrows, length_map, length_seq in Hlt.
      rewrite (bulk_groups_nth _ _ _ _ i Hb Hlt) in Hi.
      injection Hi as <-. reflexivity. }
    intros Hd g Hg. rewrite Hrows in Hg.
    apply in_map_iff in Hg as (i & <- & _). cbn [GroupForms.group_code].
    destruct (generateCode_at_most_six (random i) (Hd i)) as [Hl Ha].
    split; [rewrite Hl; lia | exact Ha].
Qed.

Lemma handleBulkCreate_rows_witness :
  let random := fun k : nat => [N.of_nat (k mod 36); 7; 8; 9; 10; 11; 12]%N in
  GroupForms.max_array_length < 4294967296 /\
  GroupForms.handleBulkCreate "w1" 4294967296 random Accepted =
    GroupForms.ThrewRangeError /\
  3 <= GroupForms.max_array_length /\
  (forall k, Forall (fun d => (d < 36)%N) (random k)) /\
  exists rows,
    GroupForms.bulk_groups "w1" 3 random = Some rows /\
    map GroupForms.group_name rows = ["Team 1"; "Team 2"; "Team 3"]%string /\
    map GroupForms.group_code rows = ["0789AB"; "1789AB"; "2789AB"]%string /\
    forall g, In g rows -> (String.length (GroupForms.group_code g) <= 6)%nat.
Proof.
  intros random.
  assert (Hbig : GroupForms.max_array_length < 4294967296) by reflexivity.
  assert (Hok : 3 <= GroupForms.max_array_length) by discriminate.
  assert (Hd : forall k, Forall (fun d => (d < 36)%N) (random k)).
  { intros k. subst random. cbv beta.
    constructor; [|repeat constructor].
    pose proof (Nat.mod_upper_bound k 36). lia. }
  split; [exact Hbig|].
  split; [exact (proj1 (handleBulkCreate_rows "w1" 4294967296 random Accepted) Hbig)|].
  split; [exact Hok|]. split; [exact Hd|].
  destruct (proj2 (handleBulkCreate_rows "w1" 3 random Accepted) Hok)
    as (rows & Hb & _ & _ & _ & _ & _ & _ & Hcodes).
  exists rows. split; [exact Hb|].
  assert (Hrows : Some rows = GroupForms.bulk_groups "w1" 3 random) by now symmetry.
  vm_compute in Hrows. injection Hrows as ->.
  split; [reflexivity|]. split; [reflexivity|].
  intros g Hg. exact (proj1 (Hcodes Hd g Hg)).
Defined.

(** X24.  The codes of one batch are not compared with each other: when
    two of the random values drawn for a batch agree on their first six
    digits, the batch that is sent holds the same code twice, under two
    different team names. *)
Theorem handleBulkCreate_may_repeat_a_code w bulkCount random rows i j :
  GroupForms.bulk_groups w bulkCount random = Some rows ->
  (i < j < Z.to_nat bulkCount)%nat ->
  firstn 6 (random i) = firstn 6 (random j) ->
  ~ NoDup (map GroupForms.group_code rows) /\
  exists g1 g2, nth_error rows i = Some g1 /\ nth_error rows j = Some g2 /\
                GroupForms.group_code g1 = GroupForms.group_code g2 /\
                GroupForms.group_name g1 <> GroupForms.group_name g2.
Proof.
  intros Hb Hij Hr.
  assert (Hi := bulk_groups_nth w bulkCount random rows i Hb ltac:(lia)).
  assert (Hj := bulk_groups_nth w bulkCount random rows j Hb ltac:(lia)).
  assert (Hc : GroupsTab.generateCode (random i) = GroupsTab.generateCode (random j))
    by (rewrite !generateCode_first_six; now rewrite Hr).
  split.
  - intros Hnd. rewrite NoDup_nth_error in Hnd.
    assert (i = j); [|lia].
    apply Hnd.
    + rewrite length_map. apply nth_error_Some. congruence.
    + rewrite !nth_error_map, Hi, Hj. cbn. now rewrite Hc.
  - eexists _, _. split; [exact Hi|]. split; [exact Hj|].
    split; [exact Hc|]. cbn. intros E. apply team_name_inj in E. lia.
Qed.

Lemma handleBulkCreate_may_repeat_a_code_witness :
  let random := fun k : nat => [5; 6; 7; 8; 9; 10; N.of_nat k]%N in
  exists rows,
    GroupForms.bulk_groups "w1" 2 random = Some rows /\
    (0 < 1 < Z.to_nat 2)%nat /\
    firstn 6 (random 0%nat) = firstn 6 (random 1%nat) /\
    ~ NoDup (map GroupForms.group_code rows).
Proof.
  intros random.
  assert (H : (0 < 1 < Z.to_nat 2)%nat) by (simpl; lia).
  eexists. split; [reflexivity|]. split; [exact H|]. split; [reflexivity|].
  exact (proj1 (handleBulkCreate_may_repeat_a_code "w1" 2 random _ 0 1
                  eq_refl H eq_refl)).
Defined.

(** ** The task form *)

Section TaskFormProperties.

Import TaskForm.

Variable created : string -> FormData -> Task.t.

Lemma with_taskData_keeps w f r :
  Task.id (with_taskData w f r) = Task.id r /\
  Task.is_active (with_taskData w f r) = Task.is_active r /\
  Task.is_ended (with_taskData w f r) = Task.is_ended r /\
  Task.start_time (with_taskData w f r) = Task.start_time r.
Proof. now repeat split. Qed.

(** X25.  [handleSubmit]: with an empty title nothing is sent, creating
    or editing, and the form stays as it is; when editing, a rejected
    update leaves the table and the form untouched, and an accepted one
    rewrites the edited columns of the task's rows only -- [is_active],
    [is_ended], [start_time] and the ids of all rows are as before, so
    saving an edit never activates, ends or re-opens a task -- and resets
    the form. *)
Theorem handleSubmit_edit w o st task tbl :
  (title (formData st) = ""%string ->
   handleSubmit created w o st tbl =
   {| table := tbl; form := st; shown := [TitleRequired]; writes := [] |}) /\
  (title (formData st) <> ""%string -> editingTask st = Some task ->
   let run := handleSubmit created w o st tbl in
   writes run = [UpdateTaskData (Task.id task) w (formData st)] /\
   match o with
   | Rejected =>
       table run = tbl /\ form run = st /\ shown run = [ErrorUpdatingTask]
   | Accepted =>
       table run = update_where Task.id (Task.id task)
                     (with_taskData w (formData st)) tbl /\
       map Task.id (table run) = map Task.id tbl /\
       map Task.is_active (table run) = map Task.is_active tbl /\
       map Task.is_ended (table run) = map Task.is_ended tbl /\
       map Task.start_time (table run) = map Task.start_time tbl /\
       form run = resetForm st /\ shown run = [TaskUpdated]
   end).
Proof.
  split.
  - intros Ht. unfold handleSubmit. now rewrite Ht.
  - intros Ht He run. subst run. unfold handleSubmit.
    apply String.eqb_neq in Ht. rewrite Ht, He.
    destruct o; cbn [table form shown writes send apply_write].
    + split; [reflexivity|]. split; [reflexivity|].
      assert (Hmap : forall {B} (p : Task.t -> B),
                (forall r, p (with_taskData w (formData st) r) = p r) ->
                map p (update_where Task.id (Task.id task)
                         (with_taskData w (formData st)) tbl) = map p tbl).
      { intros B p Hp. unfold update_where. rewrite map_map. apply map_ext.
        intros r. destruct (String.eqb (Task.id r) (Task.id task)); auto. }
      repeat split; apply Hmap; reflexivity.
    + repeat split.
Qed.

(** X26.  Opening a task with [handleEdit] and saving it unchanged is
    not always the identity: the saved rows get the task's title, points
    and order back, but a [null] description is stored as the empty string
    and a [null] or zero timer as 30.  For a stored task of this workshop
    with a description and a timer other than zero, ids being unique, the
    table is exactly as before. *)
Theorem handleEdit_then_save w task st0 tbl :
  Task.title task <> ""%string ->
  let st := handleEdit task st0 in
  let run := handleSubmit created w Accepted st tbl in
  form run = resetForm st /\
  (forall r, In r (table run) -> Task.id r = Task.id task ->
     Task.title r = Task.title task /\
     Task.points r = Task.points task /\
     Task.task_order r = Task.task_order task /\
     Task.description r = Some (description_or_empty (Task.description task)) /\
     Task.timer_minutes r = Some (timer_or_30 (Task.timer_minutes task))) /\
  (Task.description task = None -> description_or_empty (Task.description task) = ""%string) /\
  (Task.timer_minutes task = None \/ Task.timer_minutes task = Some 0 ->
   timer_or_30 (Task.timer_minutes task) = 30) /\
  (In task tbl -> NoDup (map Task.id tbl) -> Task.workshop_id task = w ->
   (exists d, Task.description task = Some d) ->
   (exists n, Task.timer_minutes task = Some n /\ n <> 0) ->
   table run = tbl).
Proof.
  intros Ht st run.
  assert (Hrun : run = {| table := update_where Task.id (Task.id task)
                                     (with_taskData w (formData st)) tbl;
                          form := resetForm st; shown := [TaskUpdated];
                          writes := [UpdateTaskData (Task.id task) w (formData st)] |}).
  { subst run. unfold handleSubmit. subst st. cbn [handleEdit formData title editingTask].
    apply String.eqb_neq in Ht. now rewrite Ht. }
  rewrite Hrun. cbn [table form].
  split; [reflexivity|]. split.
  { intros r Hr Hid. apply update_where_In in Hr as (r0 & _ & ->).
    destruct (String.eqb (Task.id r0) (Task.id task)) eqn:E.
    - now repeat split.
    - apply String.eqb_neq in E. contradiction. }
  split; [now intros ->|]. split; [now intros [-> | ->]|].
  intros Hin Hnd Hw (d & Hd) (n & Hn & Hn0).
  unfold update_where. rewrite <- (map_id tbl) at 2. apply map_ext_in.
  intros r Hr. destruct (String.eqb (Task.id r) (Task.id task)) eqn:E;
    [|reflexivity].
  apply String.eqb_eq in E.
  assert (r = task) by (eapply unique_id_same; eauto). subst r.
  subst st. unfold with_taskData, handleEdit. cbn [formData title description
    points timer_minutes task_order].
  rewrite Hd, Hn. cbn [description_or_empty timer_or_30].
  apply Z.eqb_neq in Hn0. rewrite Hn0.
  destruct task; simpl in *; subst; reflexivity.
Qed.

(** X27.  [handleDelete]: declined, nothing happens; rejected, the table
    is unchanged and the error notice is shown; accepted, exactly the rows
    with that id are gone and the others stay in their order -- and an id
    that no row has is deleted "successfully" with the table unchanged.
    The form is never touched. *)
Theorem handleDelete_outcomes o id st tbl :
  handleDelete created false o id st tbl =
    {| table := tbl; form := st; shown := []; writes := [] |} /\
  form (handleDelete created true o id st tbl) = st /\
  writes (handleDelete created true o id st tbl) = [DeleteTaskById id] /\
  match o with
  | Rejected =>
      table (handleDelete created true o id st tbl) = tbl /\
      shown (handleDelete created true o id st tbl) = [ErrorDeletingTask]
  | Accepted =>
      let tbl' := table (handleDelete created true o id st tbl) in
      (forall r, In r tbl' <-> In r tbl /\ Task.id r <> id) /\
      (exists keep, tbl' = filter keep tbl) /\
      (absent Task.id id tbl -> tbl' = tbl) /\
      shown (handleDelete created true o id st tbl) = [TaskDeleted]
  end.
Proof.
  split; [reflexivity|]. split; [now destruct o|]. split; [now destruct o|].
  destruct o; cbn [handleDelete table shown send apply_write].
  - split.
    { intros r. rewrite filter_In, negb_true_iff, String.eqb_neq. tauto. }
    split; [eexists; reflexivity|]. split; [|reflexivity].
    intros Ha. induction tbl as [|r l IH]; [reflexivity|].
    simpl. assert (Hr : Task.id r <> id) by (apply Ha; now left).
    apply String.eqb_neq in Hr. rewrite Hr. simpl. f_equal. apply IH.
    intros x Hx. apply Ha. now right.
  - split; reflexivity.
Qed.

End TaskFormProperties.

Lemma handleSubmit_edit_witness :
  let f := {| TaskForm.title := "Intro"; TaskForm.description := "d";
              TaskForm.points := 5; TaskForm.timer_minutes := 10;
              TaskForm.task_order := 2 |} in
  let st := {| TaskForm.showDialog := true;
               TaskForm.editingTask := Some (sample_task "t2" 2 false);
               TaskForm.formData := f |} in
  let run := TaskForm.handleSubmit sample_created "w1" Accepted st
               three_tasks in
  TaskForm.title (TaskForm.formData st) <> ""%string /\
  map Task.is_active (TaskForm.table run) = map Task.is_active three_tasks.
Proof.
  intros f st run.
  assert (Ht : TaskForm.title (TaskForm.formData st) <> ""%string) by discriminate.
  split; [exact Ht|].
  destruct (proj2 (handleSubmit_edit sample_created "w1" Accepted st
                     (sample_task "t2" 2 false) three_tasks) Ht eq_refl)
    as (_ & _ & _ & Ha & _).
  exact Ha.
Defined.

Lemma handleEdit_then_save_witness :
  let st0 := {| TaskForm.showDialog := false; TaskForm.editingTask := None;
                TaskForm.formData := TaskForm.emptyForm |} in
  let task := sample_task "t2" 2 false in
  let run := TaskForm.handleSubmit sample_created "w1" Accepted
               (TaskForm.handleEdit task st0) three_tasks in
  Task.title task <> ""%string /\
  forall r, In r (TaskForm.table run) -> Task.id r = Task.id task ->
            Task.description r = Some ""%string.
Proof.
  intros st0 task run.
  assert (Ht : Task.title task <> ""%string) by discriminate.
  split; [exact Ht|].
  intros r Hr Hid.
  exact (proj1 (proj2 (proj2 (proj2
    (proj1 (proj2 (handleEdit_then_save sample_created "w1" task st0 three_tasks
                     Ht)) r Hr Hid))))).
Defined.

Lemma handleDelete_outcomes_witness :
  let st := {| TaskForm.showDialog := false; TaskForm.editingTask := None;
               TaskForm.formData := TaskForm.emptyForm |} in
  let run := TaskForm.handleDelete sample_created true Accepted
               "t9" st three_tasks in
  absent Task.id "t9" three_tasks /\ TaskForm.table run = three_tasks /\
  TaskForm.shown run = [TaskForm.TaskDeleted].
Proof.
  intros st run.
  assert (Ha : absent Task.id "t9" three_tasks).
  { intros r [<-|[<-|[<-|[]]]]; discriminate. }
  split; [exact Ha|].
  destruct (proj2 (proj2 (proj2 (handleDelete_outcomes sample_created Accepted
                                   "t9" st three_tasks))))
    as (_ & _ & Hsame & Hshown).
  split; [exact (Hsame Ha) | exact Hshown].
Defined.
